(** * The integrated site builder: status check, template rendering,
      site generation and publishing

    A shallow embedding of [shared/utils.py], [shared/config.py],
    [quick_deploy.py], [main.py] and [site-integration/generator_agent.py].

    Conventions of the embedding:
    - a Python [str] is a list of characters; a character is a code point
      in the range U+0000..U+00FF, the range of Rocq's [ascii];
    - JSON numbers are integers; floating-point numbers and wall-clock
      durations are left out of the records;
    - a Python computation that may raise is a value of [exc], and a
      [try]/[except Exception] block is [try_except];
    - the outside world (HTTP server, niche configuration store, file
      system, clock) is a record of oracles; HTTP calls are numbered in the
      order they are issued, so that one URL may answer differently to two
      successive calls. *)

From Stdlib Require Import Ascii String List ZArith Bool Arith Lia.
From Stdlib Require Import DecimalString.
From Equations Require Import Equations.
Import ListNotations.

Set Implicit Arguments.
Set Warnings "-register-all".

(* ===================================================================== *)
(** ** Python strings *)
(* ===================================================================== *)

Module PyStr.

Definition pystr := list ascii.

(** String literals of the source are written [str "..."] hereafter. *)
Definition of_string (s : string) : pystr := list_ascii_of_string s.

Definition ch (n : nat) : ascii := ascii_of_nat n.

Definition code (c : ascii) : nat := nat_of_ascii c.

Definition space : ascii := ch 32.
Definition underscore : ascii := ch 95.
Definition hyphen : ascii := ch 45.
Definition lbrace : ascii := ch 123.
Definition rbrace : ascii := ch 125.
Definition dquote : ascii := ch 34.
Definition squote : ascii := ch 39.
Definition backslash : ascii := ch 92.
Definition newline : ascii := ch 10.

Fixpoint eqb_str (a b : pystr) : bool :=
  match a, b with
  | [], [] => true
  | x :: a', y :: b' => Ascii.eqb x y && eqb_str a' b'
  | _, _ => false
  end.

(** [s.startswith(p)] *)
Fixpoint starts_with (p s : pystr) : bool :=
  match p, s with
  | [], _ => true
  | _ :: _, [] => false
  | a :: p', b :: s' => Ascii.eqb a b && starts_with p' s'
  end.

(** [p in s] for two strings *)
Fixpoint contains (p s : pystr) : bool :=
  starts_with p s ||
  match s with
  | [] => false
  | _ :: s' => contains p s'
  end.

(** The substring relation that [contains] decides. *)
Definition occurs (p s : pystr) : Prop :=
  exists a b, s = a ++ p ++ b.

(** [s.replace(old, new)] with a non-empty [old]: scan from the left; at
    a position where [old] starts, emit [new] and resume after the match. *)
Equations replace_scan (old new s : pystr) : pystr by wf (length s) lt :=
  replace_scan old new [] := [];
  replace_scan old new (c :: s') with starts_with old (c :: s') := {
    | true => new ++ replace_scan old new (skipn (Nat.pred (length old)) s')
    | false => c :: replace_scan old new s' }.
Next Obligation.
  rewrite length_skipn. simpl. lia.
Qed.

(** [s.replace("", new)] puts [new] before every character and at the end. *)
Fixpoint replace_empty (new s : pystr) : pystr :=
  match s with
  | [] => new
  | c :: s' => new ++ c :: replace_empty new s'
  end.

Definition replace (old new s : pystr) : pystr :=
  match old with
  | [] => replace_empty new s
  | _ :: _ => replace_scan old new s
  end.

(** What replacing a one-character pattern by a one-character text does to
    each character. *)
Definition swap_char (a b c : ascii) : ascii :=
  if Ascii.eqb a c then b else c.

(** [c.lower()] on U+0000..U+00FF: A-Z and the Latin-1 capitals
    U+00C0..U+00DE (U+00D7, the multiplication sign, apart). *)
Definition lower_char (c : ascii) : ascii :=
  let n := code c in
  if ((65 <=? n) && (n <=? 90))
     || ((192 <=? n) && (n <=? 222) && negb (n =? 215))
  then ch (n + 32) else c.

(** [s.lower()].  On U+0000..U+00FF lower-casing maps every character to
    one character of the same range; outside it this fails (U+0130 becomes
    two code points), which is why the strings of the embedding stay within
    the range. *)
Definition lower (s : pystr) : pystr := map lower_char s.

(** [c.isalnum()] on U+0000..U+00FF. *)
Definition isalnum (c : ascii) : bool :=
  let n := code c in
  ((48 <=? n) && (n <=? 57))
  || ((65 <=? n) && (n <=? 90))
  || ((97 <=? n) && (n <=? 122))
  || (n =? 170) || (n =? 178) || (n =? 179) || (n =? 181)
  || (n =? 185) || (n =? 186)
  || ((188 <=? n) && (n <=? 190))
  || ((192 <=? n) && (n <=? 214))
  || ((216 <=? n) && (n <=? 246))
  || ((248 <=? n) && (n <=? 255)).

(** [sep.join(parts)] *)
Fixpoint join (sep : pystr) (parts : list pystr) : pystr :=
  match parts with
  | [] => []
  | [p] => p
  | p :: rest => p ++ sep ++ join sep rest
  end.

(** [str(n)] for an integer *)
Definition of_Z (n : Z) : pystr :=
  of_string (NilEmpty.string_of_int (Z.to_int n)).

End PyStr.

Import PyStr.

Abbreviation str := PyStr.of_string.
Arguments PyStr.of_string s%_string.

(* ===================================================================== *)
(** ** shared/utils.py: brand names *)
(* ===================================================================== *)

(** The dictionary returned by [format_brand_name]; the entry [display]
    ([brand_name.title()]) is left out: title-casing leaves the range
    U+0000..U+00FF. *)
Record brand_formats := {
  original : pystr;
  slug : pystr;
  component : pystr;
  filename : pystr
}.

Definition format_brand_name (brand_name : pystr) : brand_formats :=
  let slug0 :=
    replace (str "_") (str "-") (replace (str " ") (str "-") (lower brand_name)) in
  let slug1 := filter (fun c => isalnum c || Ascii.eqb c hyphen) slug0 in
  let component_name :=
    replace (str "_") (str "")
      (replace (str "-") (str "") (replace (str " ") (str "") brand_name)) in
  {| original := brand_name;
     slug := slug1;
     component := component_name;
     filename := slug1 |}.

(** The slug as section 4.3 of the specification words it: lower-case,
    every space and underscore turned into a hyphen, then every character
    that is neither alphanumeric nor a hyphen deleted. *)
Definition spec_slug (b : pystr) : pystr :=
  let hyphenate (c : ascii) :=
    if Ascii.eqb c space || Ascii.eqb c underscore then hyphen else c in
  filter (fun c => isalnum c || Ascii.eqb c hyphen)
         (map hyphenate (map lower_char b)).

(* ===================================================================== *)
(** ** JSON values and their textual forms *)
(* ===================================================================== *)

(** What [json.load] and [response.json()] return, and what the dictionaries
    of the program hold.  An object keeps its entries in insertion order;
    its keys are pairwise distinct in every value the program builds. *)
Inductive json : Type :=
| JNull
| JBool (b : bool)
| JNum (n : Z)
| JStr (t : pystr)
| JArr (items : list json)
| JObj (entries : list (pystr * json)).

Definition pydict := list (pystr * json).

(** [key in d] and [d.get(key)] on the entries of a dictionary *)
Fixpoint dict_lookup (key : pystr) (d : pydict) : option json :=
  match d with
  | [] => None
  | (k, v) :: d' => if eqb_str k key then Some v else dict_lookup key d'
  end.

Definition dict_has (key : pystr) (d : pydict) : bool :=
  match dict_lookup key d with Some _ => true | None => false end.

(** [d.get(key, default)] on the entries of a dictionary *)
Definition get_or (d : pydict) (key : pystr) (default : json) : json :=
  match dict_lookup key d with
  | Some x => x
  | None => default
  end.

(** [d[key] = v]: an existing entry keeps its place. *)
Fixpoint dict_set (key : pystr) (v : json) (d : pydict) : pydict :=
  match d with
  | [] => [(key, v)]
  | (k, x) :: d' =>
      if eqb_str k key then (k, v) :: d' else (k, x) :: dict_set key v d'
  end.

Definition hex_digit (n : nat) : ascii :=
  if n <? 10 then ch (48 + n) else ch (87 + n).

Definition hex2 (c : ascii) : pystr :=
  [hex_digit (code c / 16); hex_digit (code c mod 16)].

(** The escaping of [json.dumps] with its default [ensure_ascii=True]. *)
Definition json_escape_char (c : ascii) : pystr :=
  let n := code c in
  if n =? 34 then [backslash; dquote]
  else if n =? 92 then [backslash; backslash]
  else if n =? 10 then backslash :: str "n"
  else if n =? 13 then backslash :: str "r"
  else if n =? 9 then backslash :: str "t"
  else if n =? 8 then backslash :: str "b"
  else if n =? 12 then backslash :: str "f"
  else if (32 <=? n) && (n <=? 126) then [c]
  else backslash :: str "u00" ++ hex2 c.

Definition json_quote (t : pystr) : pystr :=
  dquote :: flat_map json_escape_char t ++ [dquote].

Definition spaces (n : nat) : pystr := repeat space n.

(** [json.dumps(v, indent=indent)], at nesting depth [level]. *)
Fixpoint json_dumps_at (indent level : nat) (v : json) : pystr :=
  let inner := newline :: spaces (indent * S level) in
  let outer := newline :: spaces (indent * level) in
  match v with
  | JNull => str "null"
  | JBool true => str "true"
  | JBool false => str "false"
  | JNum n => of_Z n
  | JStr t => json_quote t
  | JArr [] => str "[]"
  | JArr items =>
      str "[" ++ inner
      ++ join (str "," ++ inner) (map (json_dumps_at indent (S level)) items)
      ++ outer ++ str "]"
  | JObj [] => str "{}"
  | JObj entries =>
      str "{" ++ inner
      ++ join (str "," ++ inner)
           (map (fun kv => json_quote (fst kv) ++ str ": "
                           ++ json_dumps_at indent (S level) (snd kv)) entries)
      ++ outer ++ str "}"
  end.

Definition json_dumps (v : json) (indent : nat) : pystr :=
  json_dumps_at indent 0 v.

(** [repr(t)] for a string: single quotes, unless the string holds a single
    quote and no double quote. *)
Definition repr_printable (c : ascii) : bool :=
  let n := code c in
  ((32 <=? n) && (n <=? 126)) || ((161 <=? n) && negb (n =? 173)).

Definition repr_escape_char (quote : ascii) (c : ascii) : pystr :=
  let n := code c in
  if Ascii.eqb c quote || (n =? 92) then [backslash; c]
  else if n =? 10 then backslash :: str "n"
  else if n =? 13 then backslash :: str "r"
  else if n =? 9 then backslash :: str "t"
  else if repr_printable c then [c]
  else backslash :: str "x" ++ hex2 c.

Definition repr_str (t : pystr) : pystr :=
  let quote :=
    if existsb (Ascii.eqb squote) t && negb (existsb (Ascii.eqb dquote) t)
    then dquote else squote in
  quote :: flat_map (repr_escape_char quote) t ++ [quote].

(** [repr(v)] *)
Fixpoint py_repr (v : json) : pystr :=
  match v with
  | JNull => str "None"
  | JBool true => str "True"
  | JBool false => str "False"
  | JNum n => of_Z n
  | JStr t => repr_str t
  | JArr items => str "[" ++ join (str ", ") (map py_repr items) ++ str "]"
  | JObj entries =>
      str "{"
      ++ join (str ", ")
           (map (fun kv => repr_str (fst kv) ++ str ": " ++ py_repr (snd kv))
                entries)
      ++ str "}"
  end.

(** [str(v)], which is also how an f-string interpolates [v]. *)
Definition py_str (v : json) : pystr :=
  match v with
  | JStr t => t
  | _ => py_repr v
  end.

(* ===================================================================== *)
(** ** shared/utils.py: the template renderer *)
(* ===================================================================== *)

Definition placeholder (key : pystr) : pystr :=
  str "{{" ++ key ++ str "}}".

(** A key without brace characters, as every key of the generator is. *)
Definition brace_free (key : pystr) : bool :=
  forallb (fun c => negb (Ascii.eqb c lbrace || Ascii.eqb c rbrace)) key.

(** One turn of the loop of [render_template]. *)
Definition render_step (template_content : pystr) (kv : pystr * json) : pystr :=
  let (key, value) := kv in
  let text :=
    match value with
    | JObj _ | JArr _ => json_dumps value 2
    | _ => py_str value
    end in
  replace (placeholder key) text template_content.

(** [variables.items()] is the list of entries in insertion order. *)
Definition render_template (template_content : pystr) (variables : pydict) : pystr :=
  fold_left render_step variables template_content.

(* ===================================================================== *)
(** ** Exceptions, the outside world, and computations *)
(* ===================================================================== *)

Inductive exn_kind :=
| ConnectionError | JSONDecodeError | AttributeError | KeyError
| IndexError | TypeError | FileNotFoundError | OSError | PlainException
| SyntaxError | ContentTypeError.

Record exn := Exn { kind : exn_kind; message : pystr }.

(** [str(e)] *)
Definition str_exn (e : exn) : pystr := message e.

Inductive exc (A : Type) : Type :=
| Ok (a : A)
| Raise (e : exn).
Arguments Ok {A} a.
Arguments Raise {A} e.

(** What one [requests.get] does: a transport failure (connection refused,
    timeout, ...) raises; otherwise a response with a status code and a
    body, [None] when the body is not valid JSON. *)
Inductive http_outcome :=
| TransportError (e : exn)
| Response (status_code : Z) (body : option json).

Record response := { status_code : Z; body : option json }.

Inductive file_content :=
| Missing
| Malformed
| Content (j : json).

Record world := {
  (** the outcome of the [n]-th HTTP call of the run, made to [url] *)
  http_get : nat -> pystr -> http_outcome;
  (** the file [config/<niche>.json] *)
  niche_file : pystr -> file_content;
  (** whether [mkdir(parents=True, exist_ok=True)] of a path succeeds *)
  mkdir_ok : pystr -> bool;
  (** whether opening a path for writing and writing to it succeeds *)
  write_ok : pystr -> bool;
  (** [datetime.now().isoformat()] *)
  now_iso : pystr
}.

(** The contents written to a file: a text given in full, or one of the
    fixed templates of the generator with the values interpolated into it,
    in the order of their places in the template. *)
Inductive file_body :=
| Text (t : pystr)
| Rendered (template : string) (holes : list pystr).

Record state := {
  calls : nat;                        (* HTTP calls issued so far *)
  dirs : list pystr;                  (* directories created, oldest first *)
  files : list (pystr * file_body)    (* files written, oldest first *)
}.

Definition M (A : Type) : Type := state -> exc A * state.

Definition ret {A} (a : A) : M A := fun st => (Ok a, st).

Definition raise {A} (e : exn) : M A := fun st => (Raise e, st).

Definition bind {A B} (c : M A) (k : A -> M B) : M B :=
  fun st =>
    match c st with
    | (Ok a, st') => k a st'
    | (Raise e, st') => (Raise e, st')
    end.

(** [try: body except Exception as e: handler(e)]; what the body did to the
    world before it raised stays done. *)
Definition try_except {A} (body : M A) (handler : exn -> M A) : M A :=
  fun st =>
    match body st with
    | (Ok a, st') => (Ok a, st')
    | (Raise e, st') => handler e st'
    end.

Definition lift {A} (r : exc A) : M A := fun st => (r, st).

Declare Scope py_scope.
Delimit Scope py_scope with py.
Notation "x <- c ;; k" := (bind c (fun x => k))
  (at level 61, c at next level, right associativity) : py_scope.
Notation "c ;;; k" := (bind c (fun _ => k))
  (at level 61, right associativity) : py_scope.
Open Scope py_scope.

Definition throw {A} (k : exn_kind) (msg : pystr) : M A :=
  raise (Exn k msg).

(* --------------------------------------------------------------------- *)
(** *** Operations of the language on JSON values *)
(* --------------------------------------------------------------------- *)

Definition type_name (v : json) : pystr :=
  match v with
  | JNull => str "NoneType"
  | JBool _ => str "bool"
  | JNum _ => str "int"
  | JStr _ => str "str"
  | JArr _ => str "list"
  | JObj _ => str "dict"
  end.

(** [v.get(key, default)]: only a dictionary has the method. *)
Definition py_get (v : json) (key : pystr) (default : json) : M json :=
  match v with
  | JObj d => ret (get_or d key default)
  | _ =>
      throw AttributeError
        (squote :: type_name v ++ str "' object has no attribute 'get'")
  end.

(** [v[key]] for a string [key] *)
Definition py_subscript (v : json) (key : pystr) : M json :=
  match v with
  | JObj d =>
      match dict_lookup key d with
      | Some x => ret x
      | None => throw KeyError (repr_str key)
      end
  | JStr _ => throw TypeError (str "string indices must be integers")
  | JArr _ => throw TypeError (str "list indices must be integers or slices, not str")
  | _ => throw TypeError (squote :: type_name v ++ str "' object is not subscriptable")
  end.

(** [v[0]] *)
Definition py_index0 (v : json) : M json :=
  match v with
  | JArr (x :: _) => ret x
  | JArr [] => throw IndexError (str "list index out of range")
  | JStr (c :: _) => ret (JStr [c])
  | JStr [] => throw IndexError (str "string index out of range")
  | JObj _ => throw KeyError (str "0")
  | _ => throw TypeError (squote :: type_name v ++ str "' object is not subscriptable")
  end.

(** [v[:n]] *)
Definition py_slice_to (n : nat) (v : json) : M json :=
  match v with
  | JArr items => ret (JArr (firstn n items))
  | JStr t => ret (JStr (firstn n t))
  | JObj _ => throw TypeError (str "unhashable type: 'slice'")
  | _ => throw TypeError (squote :: type_name v ++ str "' object is not subscriptable")
  end.

(** [len(v)] *)
Definition py_len (v : json) : M Z :=
  match v with
  | JArr items => ret (Z.of_nat (length items))
  | JStr t => ret (Z.of_nat (length t))
  | JObj d => ret (Z.of_nat (length d))
  | _ => throw TypeError (str "object of type '" ++ type_name v ++ str "' has no len()")
  end.

(** [v < n] for an integer [n] *)
Definition py_lt_int (v : json) (n : Z) : M bool :=
  match v with
  | JNum m => ret (m <? n)%Z
  | JBool b => ret ((if b then 1 else 0) <? n)%Z
  | _ =>
      throw TypeError
        (str "'<' not supported between instances of '" ++ type_name v
         ++ str "' and 'int'")
  end.

(** [v == n] for an integer [n] *)
Definition py_eq_int (v : json) (n : Z) : bool :=
  match v with
  | JNum m => (m =? n)%Z
  | JBool b => ((if b then 1 else 0) =? n)%Z
  | _ => false
  end.

(** [bool(v)] *)
Definition truthy (v : json) : bool :=
  match v with
  | JNull => false
  | JBool b => b
  | JNum n => negb (n =? 0)%Z
  | JStr t => negb (eqb_str t [])
  | JArr items => match items with [] => false | _ => true end
  | JObj d => match d with [] => false | _ => true end
  end.

(** [sep.join(v)]: the elements of a list, the characters of a string or
    the keys of a dictionary, all of which must be strings. *)
Fixpoint all_strings (items : list json) : option (list pystr) :=
  match items with
  | [] => Some []
  | JStr t :: rest =>
      match all_strings rest with
      | Some ts => Some (t :: ts)
      | None => None
      end
  | _ :: _ => None
  end.

Definition py_join (sep : pystr) (v : json) : M pystr :=
  match v with
  | JArr items =>
      match all_strings items with
      | Some ts => ret (join sep ts)
      | None => throw TypeError (str "sequence item: expected str instance")
      end
  | JStr t => ret (join sep (map (fun c => [c]) t))
  | JObj d => ret (join sep (map fst d))
  | _ => throw TypeError (str "can only join an iterable")
  end.

(* --------------------------------------------------------------------- *)
(** *** The HTTP client *)
(* --------------------------------------------------------------------- *)

Definition count_call (st : state) : state :=
  {| calls := S (calls st); dirs := dirs st; files := files st |}.

(** [requests.get(url, timeout=...)] *)
Definition requests_get (w : world) (url : pystr) : M response :=
  fun st =>
    match http_get w (calls st) url with
    | TransportError e => (Raise e, count_call st)
    | Response c b => (Ok {| status_code := c; body := b |}, count_call st)
    end.

(** [response.json()] *)
Definition response_json (r : response) : M json :=
  match body r with
  | Some j => ret j
  | None => throw JSONDecodeError (str "Expecting value: line 1 column 1 (char 0)")
  end.

(* ===================================================================== *)
(** ** shared/config.py *)
(* ===================================================================== *)

(** [load_niche_config]: the file is absent, or does not hold JSON, or is
    parsed. *)
Definition load_niche_config (w : world) (niche : pystr) : M json :=
  match niche_file w niche with
  | Missing =>
      throw FileNotFoundError
        (str "Configuration file not found: config/" ++ niche ++ str ".json")
  | Malformed =>
      throw JSONDecodeError (str "Expecting value: line 1 column 1 (char 0)")
  | Content j => ret j
  end.

Definition get_server_status (w : world) (gcs_url : pystr) : M pydict :=
  try_except
    ((* Check health endpoint *)
     health_response <- requests_get w (gcs_url ++ str "/health") ;;
     let health_status := (status_code health_response =? 200)%Z in
     (* Check products endpoint *)
     products_response <- requests_get w (gcs_url ++ str "/products") ;;
     products_count <-
       (if (status_code products_response =? 200)%Z
        then products_data <- response_json products_response ;;
             py_get products_data (str "count") (JNum 0)
        else ret (JNum 0)) ;;
     (* Check available sites *)
     sites_response <- requests_get w (gcs_url ++ str "/sites") ;;
     available_sites <-
       (if (status_code sites_response =? 200)%Z
        then sites_data <- response_json sites_response ;;
             py_get sites_data (str "sites") (JArr [])
        else ret (JArr [])) ;;
     ret [ (str "healthy", JBool health_status);
           (str "products_count", products_count);
           (str "available_sites", available_sites);
           (str "url", JStr gcs_url);
           (str "last_checked", JStr (str "now")) ])
    (fun e =>
       ret [ (str "healthy", JBool false);
             (str "error", JStr (str_exn e));
             (str "url", JStr gcs_url);
             (str "last_checked", JStr (str "now")) ]).

Definition expected_sources : list pystr := [str "amazon"; str "cabelas"].

(** The messages printed on the way are not part of the result. *)
Definition validate_existing_server (w : world) (gcs_url : pystr) : M bool :=
  status <- get_server_status w gcs_url ;;
  healthy <- py_subscript (JObj status) (str "healthy") ;;
  if negb (truthy healthy) then ret false
  else
    products_count <- py_subscript (JObj status) (str "products_count") ;;
    too_few <- py_lt_int products_count 1 ;;
    if too_few then ret false
    else
      available_sites <- py_subscript (JObj status) (str "available_sites") ;;
      if negb (existsb (fun source => contains source (lower (py_str available_sites)))
                       expected_sources)
      then ret false
      else ret true.

(* ===================================================================== *)
(** ** quick_deploy.py *)
(* ===================================================================== *)

Definition check_server_status (w : world) (server_url : pystr) : M pydict :=
  try_except
    ((* Check health *)
     health_response <- requests_get w (server_url ++ str "/health") ;;
     if negb (status_code health_response =? 200)%Z
     then ret [ (str "success", JBool false);
                (str "error", JStr (str "Health check failed: "
                                    ++ of_Z (status_code health_response))) ]
     else
       (* Check products *)
       products_response <- requests_get w (server_url ++ str "/products") ;;
       if negb (status_code products_response =? 200)%Z
       then ret [ (str "success", JBool false);
                  (str "error", JStr (str "Products API failed: "
                                      ++ of_Z (status_code products_response))) ]
       else
         data <- response_json products_response ;;
         products_count <- py_get data (str "count") (JNum 0) ;;
         if py_eq_int products_count 0
         then ret [ (str "success", JBool false);
                    (str "error", JStr (str "No products found on server")) ]
         else
           products <- py_get data (str "products") (JArr []) ;;
           sample_products <- py_slice_to 3 products ;;
           ret [ (str "success", JBool true);
                 (str "products_count", products_count);
                 (str "sample_products", sample_products) ])
    (fun e =>
       ret [ (str "success", JBool false);
             (str "error", JStr (str_exn e)) ]).

(* ===================================================================== *)
(** ** The file system *)
(* ===================================================================== *)

(** [Path(a) / b] for the paths of the program: a relative [a] without a
    trailing separator; an absolute [b] replaces [a], an empty [b] leaves
    it. *)
Definition path_join (a b : pystr) : pystr :=
  match b with
  | [] => a
  | c :: _ => if Ascii.eqb c (ch 47) then b else a ++ str "/" ++ b
  end.

(** [path.parent] *)
Fixpoint drop_last_component (rev_path : pystr) : pystr :=
  match rev_path with
  | [] => []
  | c :: rest => if Ascii.eqb c (ch 47) then rest else drop_last_component rest
  end.

Definition path_parent (p : pystr) : pystr :=
  match rev (drop_last_component (rev p)) with
  | [] => str "."
  | q => q
  end.

Definition mkdir (w : world) (p : pystr) : M unit :=
  fun st =>
    if mkdir_ok w p
    then (Ok tt, {| calls := calls st; dirs := dirs st ++ [p]; files := files st |})
    else (Raise (Exn OSError (str "[Errno 13] Permission denied: " ++ repr_str p)), st).

Definition write_file (w : world) (p : pystr) (content : file_body) : M unit :=
  fun st =>
    if write_ok w p
    then (Ok tt, {| calls := calls st; dirs := dirs st;
                    files := files st ++ [(p, content)] |})
    else (Raise (Exn OSError (str "[Errno 13] Permission denied: " ++ repr_str p)), st).

(** [for x in xs: body(x)] *)
Fixpoint for_each {A} (xs : list A) (body : A -> M unit) : M unit :=
  match xs with
  | [] => ret tt
  | x :: rest => body x ;;; for_each rest body
  end.

(** [save_file] of shared/utils.py *)
Definition save_file (w : world) (content : file_body) (file_path : pystr) : M unit :=
  mkdir w (path_parent file_path) ;;;
  write_file w file_path content.

Definition project_directories : list pystr :=
  [ str "pages"; str "pages/api"; str "pages/category"; str "components";
    str "styles"; str "public/images"; str "config"; str "lib"; str "hooks" ].

(** [create_project_structure] of shared/utils.py, with its default
    [output_dir="./generated"] *)
Definition create_project_structure (w : world) (project_name : pystr) : M pystr :=
  let project_path := path_join (str "generated") project_name in
  for_each project_directories
    (fun directory => mkdir w (path_join project_path directory)) ;;;
  ret project_path.

(* ===================================================================== *)
(** ** main.py: the deployment record *)
(* ===================================================================== *)

(** [brand_slug] as [_save_deployment_record] computes it *)
Definition record_brand_slug (brand_name : pystr) : pystr :=
  replace (str " ") (str "-") (lower brand_name).

(** The name of the file under [./deployed] *)
Definition deployment_file_name (brand_name : pystr) : pystr :=
  record_brand_slug brand_name ++ str "-deployment.json".

Definition _save_deployment_record (w : world) (summary : pydict) : M unit :=
  mkdir w (str "deployed") ;;;
  brand_name <- py_subscript (JObj summary) (str "brand_name") ;;
  match brand_name with
  | JStr b =>
      let deployment_file := path_join (str "deployed") (deployment_file_name b) in
      let record :=
        dict_set (str "system_version") (JStr (str "1.0.0"))
          (dict_set (str "deployed_at") (JStr (now_iso w)) summary) in
      write_file w deployment_file (Text (json_dumps (JObj record) 2))
  | v =>
      throw AttributeError
        (squote :: type_name v ++ str "' object has no attribute 'lower'")
  end.

(* ===================================================================== *)
(** ** site-integration/generator_agent.py *)
(* ===================================================================== *)

(** The long fixed texts of the page, component, style and documentation
    templates are named, not copied: a file written from one of them is
    [Rendered name holes].  The package manifest and the API route are given
    in full. *)

Definition empty_sample : pydict :=
  [ (str "count", JNum 0); (str "products", JArr []) ].

Definition _fetch_product_data (w : world) (api_url : pystr) : M json :=
  try_except
    (response <- requests_get w (api_url ++ str "/products") ;;
     if (status_code response =? 200)%Z
     then data <- response_json response ;;
          (* the log line reads [data.get('count', 0)] *)
          _ <- py_get data (str "count") (JNum 0) ;;
          ret data
     else ret (JObj empty_sample))
    (fun e => ret (JObj empty_sample)).

Definition _generate_package_json (template_vars : pydict) : M file_body :=
  brand_slug <- py_subscript (JObj template_vars) (str "brand_slug") ;;
  brand_name <- py_subscript (JObj template_vars) (str "brand_name") ;;
  let package_config :=
    JObj [ (str "name", brand_slug);
           (str "version", JStr (str "1.0.0"));
           (str "description",
            JStr (str "Affiliate marketing website for " ++ py_str brand_name));
           (str "scripts",
            JObj [ (str "dev", JStr (str "next dev"));
                   (str "build", JStr (str "next build"));
                   (str "start", JStr (str "next start"));
                   (str "lint", JStr (str "next lint"));
                   (str "export", JStr (str "next build && next export")) ]);
           (str "dependencies",
            JObj [ (str "next", JStr (str "^14.0.0"));
                   (str "react", JStr (str "^18.0.0"));
                   (str "react-dom", JStr (str "^18.0.0"));
                   (str "@next/font", JStr (str "^14.0.0"));
                   (str "tailwindcss", JStr (str "^3.3.0"));
                   (str "autoprefixer", JStr (str "^10.4.16"));
                   (str "postcss", JStr (str "^8.4.31"));
                   (str "axios", JStr (str "^1.6.0"));
                   (str "swr", JStr (str "^2.2.4")) ]);
           (str "devDependencies",
            JObj [ (str "eslint", JStr (str "^8.0.0"));
                   (str "eslint-config-next", JStr (str "^14.0.0"));
                   (str "@types/node", JStr (str "^20.0.0"));
                   (str "@types/react", JStr (str "^18.0.0"));
                   (str "@types/react-dom", JStr (str "^18.0.0"));
                   (str "typescript", JStr (str "^5.0.0")) ]) ] in
  ret (Text (json_dumps package_config 2)).

(** [d.get(key, [fallback])[0]], the shape of three places of the home page *)
Definition first_of (d : json) (key fallback : pystr) : M pystr :=
  options <- py_get d key (JArr [JStr fallback]) ;;
  first <- py_index0 options ;;
  ret (py_str first).

Definition _create_index_page (template_vars : pydict) : M file_body :=
  let tv := JObj template_vars in
  content_strategy <- py_get tv (str "content_strategy") (JObj []) ;;
  color_scheme <- py_get tv (str "color_scheme") (JObj []) ;;
  brand1 <- py_subscript tv (str "brand_name") ;;
  title <- first_of content_strategy (str "hero_headlines") (str "Quality Outdoor Gear") ;;
  niche_config <- py_subscript tv (str "niche_config") ;;
  seo <- py_get niche_config (str "seo_optimization") (JObj []) ;;
  meta <- py_get seo (str "meta_description") (JStr []) ;;
  brand2 <- py_subscript tv (str "brand_name") ;;
  headline <- first_of content_strategy (str "hero_headlines") (str "Gear Up for Adventure") ;;
  subtitle <- first_of content_strategy (str "value_propositions")
                (str "Quality gear at great prices") ;;
  cta <- first_of content_strategy (str "primary_ctas") (str "Shop Now") ;;
  ret (Rendered "index page"
         [py_str brand1; title; py_str meta; py_str brand2; headline; subtitle; cta]).

(** The text of the template of [_create_api_route] up to the default API URL *)
Definition api_route_head : pystr := str "// API route to fetch products from the GCS server
export default async function handler(req, res) {
  if (req.method !== 'GET') {
    return res.status(405).json({ error: 'Method not allowed' })
  }

  try {
    const apiUrl = process.env.SCRAPER_API_URL || '".

(** The text of the template of [_create_api_route] from the default API URL to the fallback count *)
Definition api_route_count : pystr := str "'
    
    const response = await fetch(`${apiUrl}/products`, {
      headers: {
        'Accept': 'application/json',
      },
      timeout: 10000
    })

    if (!response.ok) {
      throw new Error(`API responded with status: ${response.status}`)
    }

    const data = await response.json()
    
    // Ensure we have the expected structure
    if (!data.products || !Array.isArray(data.products)) {
      throw new Error('Invalid data structure from API')
    }

    // Add timestamp for debugging
    data.fetched_at = new Date().toISOString()
    data.source = 'live-api'

    res.status(200).json(data)
  } catch (error) {
    console.error('Error fetching from GCS server:', error)
    
    // Fallback to sample data
    const fallbackData = {
      count: ".

(** The text of the template of [_create_api_route] from the fallback count to the fallback products *)
Definition api_route_products : pystr := str ",
      products: ".

(** The text of the template of [_create_api_route] after the fallback products *)
Definition api_route_tail : pystr := str ",
      source: 'fallback',
      error: error.message,
      fetched_at: new Date().toISOString()
    }
    
    res.status(200).json(fallbackData)
  }
}".

(** The two values that [_create_api_route] embeds in the fallback payload
    of the route: [count] and [products]. *)
Definition fallback_count (template_vars : pydict) : M Z :=
  sample_products <- py_get (JObj template_vars) (str "sample_products") (JArr []) ;;
  py_len sample_products.

Definition fallback_products (template_vars : pydict) : M json :=
  sample_products <- py_get (JObj template_vars) (str "sample_products") (JArr []) ;;
  py_slice_to 3 sample_products.

Definition _create_api_route (template_vars : pydict) : M pystr :=
  api_url <- py_subscript (JObj template_vars) (str "api_url") ;;
  count <- fallback_count template_vars ;;
  products <- fallback_products template_vars ;;
  ret (api_route_head ++ py_str api_url
       ++ api_route_count ++ of_Z count
       ++ api_route_products ++ json_dumps products 6
       ++ api_route_tail).

(** Three templates of the generator are f-strings in which JSX braces are
    left unescaped: what stands between the braces is not an expression of
    the language ([f-string: invalid syntax]), so the method cannot be
    compiled and never returns a text.  The embedding puts the failure at
    the call of the method. *)
Definition invalid_fstring {A} : M A :=
  throw SyntaxError (str "f-string: invalid syntax").

(** Lines 394-473; the brace expression of line 440 is not valid. *)
Definition _create_category_page (template_vars : pydict) : M file_body :=
  invalid_fstring.

Definition _generate_pages (w : world) (project_path : pystr)
    (template_vars : pydict) : M (list pystr) :=
  (* Home page (index.js) *)
  index_content <- _create_index_page template_vars ;;
  let index_path := path_join (path_join project_path (str "pages")) (str "index.js") in
  save_file w index_content index_path ;;;
  (* API route for products *)
  api_content <- _create_api_route template_vars ;;
  let api_path :=
    path_join (path_join (path_join project_path (str "pages")) (str "api"))
              (str "products.js") in
  save_file w (Text api_content) api_path ;;;
  (* Category page template *)
  category_content <- _create_category_page template_vars ;;
  let category_path :=
    path_join (path_join (path_join project_path (str "pages")) (str "category"))
              (str "[slug].js") in
  save_file w category_content category_path ;;;
  ret [index_path; api_path; category_path].

(** Lines 513-588; [{/* Logo */}] at line 530, and the like at lines 535,
    554 and 565, are not valid. *)
Definition _create_navigation_component (template_vars : pydict) : M file_body :=
  invalid_fstring.

Definition _create_hero_component (template_vars : pydict) : M file_body :=
  ret (Rendered "Hero component" []).

Definition _create_product_grid_component (template_vars : pydict) : M file_body :=
  ret (Rendered "ProductGrid component" []).

Definition _create_product_card_component (template_vars : pydict) : M file_body :=
  ret (Rendered "ProductCard component" []).

(** Lines 728-792; [{/* Brand */}] at line 736, and the like at lines 744,
    755 and 766, are not valid. *)
Definition _create_footer_component (template_vars : pydict) : M file_body :=
  invalid_fstring.

Definition _generate_components (w : world) (project_path : pystr)
    (template_vars : pydict) : M (list pystr) :=
  let components_dir := path_join project_path (str "components") in
  nav_content <- _create_navigation_component template_vars ;;
  let nav_path := path_join components_dir (str "Navigation.js") in
  save_file w nav_content nav_path ;;;
  hero_content <- _create_hero_component template_vars ;;
  let hero_path := path_join components_dir (str "Hero.js") in
  save_file w hero_content hero_path ;;;
  grid_content <- _create_product_grid_component template_vars ;;
  let grid_path := path_join components_dir (str "ProductGrid.js") in
  save_file w grid_content grid_path ;;;
  card_content <- _create_product_card_component template_vars ;;
  let card_path := path_join components_dir (str "ProductCard.js") in
  save_file w card_content card_path ;;;
  footer_content <- _create_footer_component template_vars ;;
  let footer_path := path_join components_dir (str "Footer.js") in
  save_file w footer_content footer_path ;;;
  ret [nav_path; hero_path; grid_path; card_path; footer_path].

Definition color_of (color_scheme : json) (slot fallback : pystr) : M pystr :=
  color <- py_get color_scheme slot (JStr fallback) ;;
  ret (py_str color).

Definition _create_global_css (template_vars : pydict) : M file_body :=
  color_scheme <- py_get (JObj template_vars) (str "color_scheme") (JObj []) ;;
  primary <- color_of color_scheme (str "primary") (str "#2D5016") ;;
  secondary <- color_of color_scheme (str "secondary") (str "#8FBC8F") ;;
  accent <- color_of color_scheme (str "accent") (str "#F4A460") ;;
  background <- color_of color_scheme (str "background") (str "#F5F5DC") ;;
  ret (Rendered "global stylesheet" [primary; secondary; accent; background]).

Definition _create_tailwind_config (template_vars : pydict) : M file_body :=
  ret (Rendered "tailwind config" []).

Definition _create_postcss_config : M file_body :=
  ret (Rendered "postcss config" []).

Definition _generate_styles (w : world) (project_path : pystr)
    (template_vars : pydict) : M (list pystr) :=
  let styles_dir := path_join project_path (str "styles") in
  (* Global CSS *)
  global_css <- _create_global_css template_vars ;;
  let global_path := path_join styles_dir (str "globals.css") in
  save_file w global_css global_path ;;;
  (* Tailwind config *)
  tailwind_config <- _create_tailwind_config template_vars ;;
  let tailwind_path := path_join project_path (str "tailwind.config.js") in
  save_file w tailwind_config tailwind_path ;;;
  (* PostCSS config *)
  postcss_config <- _create_postcss_config ;;
  let postcss_path := path_join project_path (str "postcss.config.js") in
  save_file w postcss_config postcss_path ;;;
  ret [global_path; tailwind_path; postcss_path].

(** [template_vars["niche_config"]["site_config"][key]] *)
Definition site_config_entry (template_vars : pydict) (key : pystr) : M json :=
  niche_config <- py_subscript (JObj template_vars) (str "niche_config") ;;
  site_config <- py_subscript niche_config (str "site_config") ;;
  py_subscript site_config key.

Definition _create_next_config (template_vars : pydict) : M file_body :=
  brand_name <- py_subscript (JObj template_vars) (str "brand_name") ;;
  niche <- site_config_entry template_vars (str "niche") ;;
  ret (Rendered "next config" [py_str brand_name; py_str niche]).

Definition _create_env_example (template_vars : pydict) : M file_body :=
  api_url <- py_subscript (JObj template_vars) (str "api_url") ;;
  brand_name <- py_subscript (JObj template_vars) (str "brand_name") ;;
  niche <- site_config_entry template_vars (str "niche") ;;
  ret (Rendered "env example" [py_str api_url; py_str brand_name; py_str niche]).

Definition _create_vercel_config (template_vars : pydict) : M file_body :=
  ret (Rendered "vercel config" []).

Definition _generate_config_files (w : world) (project_path : pystr)
    (template_vars : pydict) : M (list pystr) :=
  (* Next.js config *)
  next_config <- _create_next_config template_vars ;;
  let next_path := path_join project_path (str "next.config.js") in
  save_file w next_config next_path ;;;
  (* Environment variables example *)
  env_example <- _create_env_example template_vars ;;
  let env_path := path_join project_path (str ".env.example") in
  save_file w env_example env_path ;;;
  (* Vercel configuration *)
  vercel_config <- _create_vercel_config template_vars ;;
  let vercel_path := path_join project_path (str "vercel.json") in
  save_file w vercel_config vercel_path ;;;
  ret [next_path; env_path; vercel_path].

Definition _create_readme (template_vars : pydict) : M file_body :=
  let tv := JObj template_vars in
  brand_name <- py_subscript tv (str "brand_name") ;;
  api1 <- py_subscript tv (str "api_url") ;;
  total <- py_get tv (str "total_products") (JStr (str "Loading...")) ;;
  primary_categories <- site_config_entry template_vars (str "primary_categories") ;;
  categories <- py_join (str ", ") primary_categories ;;
  generated_at <- py_subscript tv (str "generated_at") ;;
  api2 <- py_subscript tv (str "api_url") ;;
  api3 <- py_subscript tv (str "api_url") ;;
  api4 <- py_subscript tv (str "api_url") ;;
  api5 <- py_subscript tv (str "api_url") ;;
  brand_slug <- py_subscript tv (str "brand_slug") ;;
  scheme1 <- py_subscript tv (str "color_scheme") ;;
  primary <- color_of scheme1 (str "primary") (str "#2D5016") ;;
  scheme2 <- py_subscript tv (str "color_scheme") ;;
  secondary <- color_of scheme2 (str "secondary") (str "#8FBC8F") ;;
  scheme3 <- py_subscript tv (str "color_scheme") ;;
  accent <- color_of scheme3 (str "accent") (str "#F4A460") ;;
  ret (Rendered "README"
         [ py_str brand_name; py_str api1; py_str total; categories;
           py_str generated_at; py_str api2; py_str api3; py_str api4;
           py_str api5; py_str brand_slug; primary; secondary; accent ]).

Definition _create_deployment_guide (template_vars : pydict) : M file_body :=
  let tv := JObj template_vars in
  brand_name <- py_subscript tv (str "brand_name") ;;
  api1 <- py_subscript tv (str "api_url") ;;
  api2 <- py_subscript tv (str "api_url") ;;
  api3 <- py_subscript tv (str "api_url") ;;
  ret (Rendered "deployment guide"
         [py_str brand_name; py_str api1; py_str api2; py_str api3]).

Definition _generate_documentation (w : world) (project_path : pystr)
    (template_vars : pydict) : M (list pystr) :=
  (* README.md *)
  readme_content <- _create_readme template_vars ;;
  let readme_path := path_join project_path (str "README.md") in
  save_file w readme_content readme_path ;;;
  (* Deployment guide *)
  deploy_content <- _create_deployment_guide template_vars ;;
  let deploy_path := path_join project_path (str "DEPLOYMENT.md") in
  save_file w deploy_content deploy_path ;;;
  ret [readme_path; deploy_path].

(** The dictionary of template variables that [_generate_website_files]
    builds. *)
Definition build_template_vars (w : world) (brand_name : pystr)
    (niche_config product_data : json) (api_url : pystr) : M pydict :=
  products <- py_get product_data (str "products") (JArr []) ;;
  sample_products <- py_slice_to 6 products ;;   (* First 6 for examples *)
  total_products <- py_get product_data (str "count") (JNum 0) ;;
  design_config <- py_get niche_config (str "design_config") (JObj []) ;;
  color_scheme <- py_get design_config (str "color_scheme") (JObj []) ;;
  content_strategy <- py_get niche_config (str "content_strategy") (JObj []) ;;
  ret [ (str "brand_name", JStr brand_name);
        (str "brand_slug", JStr (slug (format_brand_name brand_name)));
        (str "api_url", JStr api_url);
        (str "niche_config", niche_config);
        (str "sample_products", sample_products);
        (str "total_products", total_products);
        (str "generated_at", JStr (now_iso w));
        (str "color_scheme", color_scheme);
        (str "content_strategy", content_strategy) ].

(** The result of [_generate_website_files], its [duration] apart. *)
Record generation_results := {
  result_files : list pystr;
  file_count : nat
}.

Definition _generate_website_files (w : world) (project_path brand_name : pystr)
    (niche_config product_data : json) (api_url : pystr) : M generation_results :=
  (* Template variables *)
  template_vars <- build_template_vars w brand_name niche_config product_data api_url ;;
  (* Generate package.json *)
  package_json <- _generate_package_json template_vars ;;
  let package_path := path_join project_path (str "package.json") in
  save_file w package_json package_path ;;;
  (* Generate Next.js pages *)
  pages_files <- _generate_pages w project_path template_vars ;;
  (* Generate React components *)
  component_files <- _generate_components w project_path template_vars ;;
  (* Generate styles *)
  style_files <- _generate_styles w project_path template_vars ;;
  (* Generate configuration files *)
  config_files <- _generate_config_files w project_path template_vars ;;
  (* Generate README and deployment files *)
  docs_files <- _generate_documentation w project_path template_vars ;;
  let generated_files :=
    [package_path] ++ pages_files ++ component_files ++ style_files
    ++ config_files ++ docs_files in
  ret {| result_files := generated_files;
         file_count := length generated_files |}.

Definition next_steps : json :=
  JArr [ JStr (str "Review generated website files");
         JStr (str "Test locally with npm run dev");
         JStr (str "Deploy to Vercel");
         JStr (str "Configure environment variables") ].

(** The dictionary returned on success omits [generation_time], a number
    of seconds. *)
Definition generate_affiliate_site (w : world)
    (brand_name niche target_audience scraper_api_url : pystr) : M pydict :=
  try_except
    ((* Validate server connection *)
     valid <- validate_existing_server w scraper_api_url ;;
     if negb valid
     then throw PlainException (str "GCS server validation failed")
     else
       (* Load niche configuration *)
       niche_config <- load_niche_config w niche ;;
       (* Create project structure *)
       let brand_formatted := format_brand_name brand_name in
       project_path <- create_project_structure w (slug brand_formatted) ;;
       (* Fetch live product data for context *)
       product_data <- _fetch_product_data w scraper_api_url ;;
       (* Generate website components *)
       generation_results <-
         _generate_website_files w project_path brand_name niche_config
           product_data scraper_api_url ;;
       products <- py_get product_data (str "products") (JArr []) ;;
       product_count <- py_len products ;;
       ret [ (str "success", JBool true);
             (str "project_path", JStr project_path);
             (str "brand_name", JStr brand_name);
             (str "niche", JStr niche);
             (str "api_url", JStr scraper_api_url);
             (str "generated_files", JArr (map JStr (result_files generation_results)));
             (str "product_count", JNum product_count);
             (str "next_steps", next_steps) ])
    (fun e =>
       ret [ (str "success", JBool false);
             (str "error", JStr (str_exn e)) ]).

(** [deploy_to_vercel]: the simulated deployment *)
Definition deploy_to_vercel (w : world) (project_path api_url : pystr)
    (vercel_token : option pystr) : M pydict :=
  ret [ (str "success", JBool true);
        (str "vercel_url",
         JStr (str "https://" ++ slug (format_brand_name (str "Adventure Gear Pro"))
               ++ str ".vercel.app"));
        (str "deployment_time", JNum 45) ].

(* ===================================================================== *)
(** ** Vocabulary of the statements, and scenarios *)
(* ===================================================================== *)

(** The calls of the status check, in the order it issues them. *)
Definition status_urls (base : pystr) : list pystr :=
  [ base ++ str "/health"; base ++ str "/products"; base ++ str "/sites" ].

Definition quick_status_urls (base : pystr) : list pystr :=
  [ base ++ str "/health"; base ++ str "/products" ].

(** Between the states [st] and [st'] a computation issued its calls to
    [urls] in order, and one of the calls it issued failed with the
    transport error [e]. *)
Definition issued_call_failed (w : world) (urls : list pystr)
    (st st' : state) (e : exn) : Prop :=
  exists k u,
    calls st + k < calls st'
    /\ nth_error urls k = Some u
    /\ http_get w (calls st + k) u = TransportError e.


(** The product fetch, issued as call [n], fails: a transport error or a
    status other than 200. *)
Definition fetch_fails (w : world) (n : nat) (api_url : pystr) : Prop :=
  match http_get w n (api_url ++ str "/products") with
  | TransportError _ => True
  | Response c _ => (c =? 200)%Z = false
  end.

(** The files of a generated site, relative to the project directory, in
    the order they are written. *)
Definition site_files : list pystr :=
  [ str "package.json";
    str "pages/index.js"; str "pages/api/products.js"; str "pages/category/[slug].js";
    str "components/Navigation.js"; str "components/Hero.js";
    str "components/ProductGrid.js"; str "components/ProductCard.js";
    str "components/Footer.js";
    str "styles/globals.css"; str "tailwind.config.js"; str "postcss.config.js";
    str "next.config.js"; str ".env.example"; str "vercel.json";
    str "README.md"; str "DEPLOYMENT.md" ].

Definition site_paths (project_path : pystr) : list pystr :=
  map (fun name => project_path ++ str "/" ++ name) site_files.

(** The API route of a site generated from the empty sample. *)
Definition empty_fallback_route (api_url : pystr) : pystr :=
  api_route_head ++ api_url
  ++ api_route_count ++ str "0"
  ++ api_route_products ++ str "[]"
  ++ api_route_tail.

Module Scenario.

Definition start : state := {| calls := 0; dirs := []; files := [] |}.

Definition timed_out : exn :=
  Exn ConnectionError (str "HTTPConnectionPool: Read timed out.").

(** A server that answers the calls of a run from a script, one outcome
    per call, and times out once the script is over. *)
Definition scripted (script : list http_outcome) (n : nat) (url : pystr) : http_outcome :=
  nth n script (TransportError timed_out).

Definition product (name : string) (price : Z) : json :=
  JObj [ (str "name", JStr (str name)); (str "price", JNum price) ].

Definition ok_health : http_outcome := Response 200 (Some (JObj [])).

Definition four_products : list json :=
  [ product "Tent" 199; product "Stove" 49; product "Boots" 120;
    product "Pack" 89 ].

(** A products body whose [count] is not the length of its array. *)
Definition products_body : pydict :=
  [ (str "count", JNum 12); (str "products", JArr four_products) ].

Definition twelve_products : http_outcome :=
  Response 200 (Some (JObj products_body)).

Definition two_sites : http_outcome :=
  Response 200 (Some (JObj [ (str "sites", JArr [JStr (str "amazon"); JStr (str "cabelas")]) ])).

Definition outdoor_config : json :=
  JObj [ (str "site_config",
          JObj [ (str "niche", JStr (str "outdoor-adventure"));
                 (str "primary_categories",
                  JArr [JStr (str "camping"); JStr (str "hiking")]) ]);
         (str "content_strategy",
          JObj [ (str "hero_headlines", JArr [JStr (str "Gear Up")]) ]) ].

Definition gcs : pystr := str "http://10.0.0.5:8000".

Definition server (script : list http_outcome) (config : file_content)
    (disk_ok : pystr -> bool) : world :=
  {| http_get := scripted script;
     niche_file := fun _ => config;
     mkdir_ok := fun _ => true;
     write_ok := disk_ok;
     now_iso := str "2024-06-01T12:00:00" |}.

(** Health, products and sites all answer. *)
Definition healthy_server : world :=
  server [ok_health; twelve_products; two_sites; twelve_products]
         (Content outdoor_config) (fun _ => true).

(** Health and products answer; the sites call times out. *)
Definition sites_down : world :=
  server [ok_health; twelve_products] (Content outdoor_config) (fun _ => true).

(** The state of a run after the three calls of the validation. *)
Definition validated : state := {| calls := 3; dirs := []; files := [] |}.

Definition brand : pystr := str "Adventure Gear Pro".

Definition outdoor : pystr := str "outdoor-adventure".

Definition hikers : pystr := str "Outdoor enthusiasts, hikers, and campers".

(** Validation passes, then the product fetch (the fourth call) times
    out. *)
Definition fetch_down : world :=
  server [ok_health; twelve_products; two_sites]
         (Content outdoor_config) (fun _ => true).

End Scenario.

(* ===================================================================== *)
(** ** More of shared/utils.py *)
(* ===================================================================== *)

(** [t[:stop]]: a negative [stop] counts from the end. *)
Definition py_slice_stop (stop : Z) (t : pystr) : pystr :=
  if (0 <=? stop)%Z
  then firstn (Z.to_nat stop) t
  else firstn (length t - Z.to_nat (- stop)) t.

Definition truncate_text (text : pystr) (max_length : Z) : pystr :=
  if (Z.of_nat (length text) <=? max_length)%Z
  then text
  else py_slice_stop (max_length - 3) text ++ str "...".

(** The character class of [sanitize_filename]: less-than, greater-than,
    colon, double quote, slash, backslash, vertical bar, question mark and
    asterisk. *)
Definition invalid_filename_char (c : ascii) : bool :=
  existsb (Ascii.eqb c)
    [ch 60; ch 62; ch 58; dquote; ch 47; backslash; ch 124; ch 63; ch 42].

Definition sanitize_filename (filename : pystr) : pystr :=
  (* Remove or replace invalid characters *)
  let filename1 := filter (fun c => negb (invalid_filename_char c)) filename in
  let filename2 := replace (str " ") (str "_") filename1 in
  (* Limit length *)
  if 100 <? length filename2 then firstn 100 filename2 else filename2.

(** [validate_api_response]; what it logs is not part of the result. *)
Definition validate_api_response (response_data : pydict) : bool :=
  if negb (dict_has (str "count") response_data) then false
  else if negb (dict_has (str "products") response_data) then false
  else
    match dict_lookup (str "products") response_data with
    | Some (JArr _) => true     (* a count mismatch is only logged *)
    | _ => false
    end.

(** The environment of the process: [os.getenv]. *)
Definition environment := pystr -> option pystr.

Definition required_vars : list pystr :=
  [ str "OPENAI_API_KEY"; str "ANTHROPIC_API_KEY"; str "GCS_SERVER_URL" ].

Definition optional_vars : list pystr :=
  [ str "VERCEL_TOKEN"; str "GCP_PROJECT_ID" ].

(** [not os.getenv(var)]: unset, or set to the empty string. *)
Definition unset (env : environment) (var : pystr) : bool :=
  match env var with
  | None => true
  | Some [] => true
  | Some (_ :: _) => false
  end.

(** [validate_environment]; the warnings about the optional variables are
    only logged. *)
Definition validate_environment (env : environment) : bool :=
  let missing_vars := filter (unset env) required_vars in
  match missing_vars with
  | _ :: _ => false
  | [] => true
  end.

(** A character of a brand name, within U+0000..U+00FF, that is
    alphanumeric, a space or a hyphen. *)
Definition plain_brand_char (c : ascii) : bool :=
  isalnum c || Ascii.eqb c space || Ascii.eqb c hyphen.

(* ===================================================================== *)
(** ** More of main.py: the probes of the orchestrator *)
(* ===================================================================== *)

(** [v > n] for an integer [n] *)
Definition py_gt_int (v : json) (n : Z) : M bool :=
  match v with
  | JNum m => ret (n <? m)%Z
  | JBool b => ret (n <? (if b then 1 else 0))%Z
  | _ =>
      throw TypeError
        (str "'>' not supported between instances of '" ++ type_name v
         ++ str "' and 'int'")
  end.

(** What [aiohttp]'s [session.get] gives: the status, the body, [None]
    when it is not valid JSON, and whether the response is served with a
    JSON content type. *)
Record client_response := {
  status : Z;
  payload : option json;
  json_content_type : bool
}.

(** [session.get(url)]; [served_as_json n url] tells whether the answer to
    the [n]-th call of the run, made to [url], has a JSON content type. *)
Definition session_get (w : world) (served_as_json : nat -> pystr -> bool)
    (url : pystr) : M client_response :=
  fun st =>
    match http_get w (calls st) url with
    | TransportError e => (Raise e, count_call st)
    | Response c b =>
        (Ok {| status := c; payload := b;
               json_content_type := served_as_json (calls st) url |},
         count_call st)
    end.

(** [await response.json()]: a response that is not served with a JSON
    content type is refused before its body is parsed.  (Of an empty body
    [json()] returns [None], on which the [.get] that follows raises: an
    exception inside the same [try] in both readings.) *)
Definition client_json (r : client_response) : M json :=
  if json_content_type r
  then match payload r with
       | Some j => ret j
       | None => throw JSONDecodeError (str "Expecting value: line 1 column 1 (char 0)")
       end
  else throw ContentTypeError
         (str "Attempt to decode JSON with unexpected mimetype").

(** [_validate_scraper_data]: the count that the scraper reports, 0 on any
    failure. *)
Definition _validate_scraper_data (w : world)
    (served_as_json : nat -> pystr -> bool) (api_url : pystr) : M json :=
  try_except
    (response <- session_get w served_as_json (api_url ++ str "/products") ;;
     if (status response =? 200)%Z
     then data <- client_json response ;;
          py_get data (str "count") (JNum 0)
     else ret (JNum 0))
    (fun e => ret (JNum 0)).

(** [try: ... except: pass] around one probe, whose effect is an update of
    the dictionary of results. *)
Definition probe (results : pydict) (attempt : M pydict) : M pydict :=
  try_except attempt (fun _ => ret results).

Definition _validate_complete_system (w : world)
    (served_as_json : nat -> pystr -> bool) (vercel_url api_url : pystr)
    : M pydict :=
  let validation_results :=
    [ (str "scraper_api_healthy", JBool false);
      (str "website_loads", JBool false);
      (str "api_integration_working", JBool false) ] in
  (* Test scraper API health *)
  results1 <-
    probe validation_results
      (response <- session_get w served_as_json (api_url ++ str "/health") ;;
       ret (dict_set (str "scraper_api_healthy")
              (JBool (status response =? 200)%Z) validation_results)) ;;
  (* Test website loads *)
  results2 <-
    probe results1
      (response <- session_get w served_as_json vercel_url ;;
       ret (dict_set (str "website_loads")
              (JBool (status response =? 200)%Z) results1)) ;;
  (* Test API integration through website *)
  results3 <-
    probe results2
      (response <- session_get w served_as_json (vercel_url ++ str "/api/products") ;;
       if (status response =? 200)%Z
       then data <- client_json response ;;
            count <- py_get data (str "count") (JNum 0) ;;
            working <- py_gt_int count 0 ;;
            ret (dict_set (str "api_integration_working") (JBool working) results2)
       else ret results2) ;;
  ret results3.

(* ===================================================================== *)
(** ** quick_deploy.py: the version-control publish *)
(* ===================================================================== *)

(** The commands that [setup_git_and_push] runs with [check=True]. *)
Inductive git_command :=
| GitInit                                  (* git init *)
| GitRemoteAddOrigin (repo_url : pystr)    (* git remote add origin <url> *)
| GitAddAll                                (* git add . *)
| GitCommit                                (* git commit -m <fixed message> *)
| GitPushForceMain.                        (* git push origin main --force *)

Record shell := {
  (** whether [os.chdir] to a directory succeeds *)
  chdir_ok : pystr -> bool;
  (** whether the directory holds a [.git] entry *)
  git_dir_exists : pystr -> bool;
  (** whether a command exits with status 0, given the commands run before *)
  command_ok : list git_command -> git_command -> bool
}.

(** [subprocess.run(cmd, check=True)] for each command in turn: a command
    that fails raises, and what follows it is not run.  The result is
    whether all commands succeeded, with the commands that were run. *)
Fixpoint run_checked (sh : shell) (done todo : list git_command)
    : bool * list git_command :=
  match todo with
  | [] => (true, done)
  | cmd :: rest =>
      if command_ok sh done cmd
      then run_checked sh (done ++ [cmd]) rest
      else (false, done ++ [cmd])
  end.

(** [setup_git_and_push]: both [except] branches return [False]. *)
Definition setup_git_and_push (sh : shell) (site_dir repo_url : pystr)
    : bool * list git_command :=
  if negb (chdir_ok sh site_dir) then (false, [])
  else
    (* Initialize git if not already done *)
    let initialize :=
      if negb (git_dir_exists sh site_dir)
      then [GitInit; GitRemoteAddOrigin repo_url]
      else [] in
    run_checked sh [] (initialize ++ [GitAddAll; GitCommit; GitPushForceMain]).

(* ===================================================================== *)
(** ** Vocabulary of the further statements *)
(* ===================================================================== *)

(** A computation that leaves the state as it found it. *)
Definition stateless {A} (c : M A) : Prop :=
  forall st, snd (c st) = st.

(** A call that was answered, with status 200. *)
Definition answered_200 (o : http_outcome) : bool :=
  match o with
  | Response c _ => (c =? 200)%Z
  | TransportError _ => false
  end.

(** [writes c n paths post]: the computation [c] issues at most [n] HTTP
    calls and writes files under the names [paths], in this order and
    nothing else; if it raises it has written the first few of them, and if
    it returns, all of them, and its result satisfies [post]. *)
Definition writes {A} (c : M A) (n : nat) (paths : list pystr)
    (post : A -> Prop) : Prop :=
  forall st r st',
    c st = (r, st') ->
    calls st <= calls st' <= n + calls st
    /\ exists done rest,
         paths = done ++ rest
         /\ map fst (files st') = map fst (files st) ++ done
         /\ match r with
            | Ok a => rest = [] /\ post a
            | Raise _ => True
            end.

(** The paths of a generated site as the generator builds them. *)
Definition generated_paths (project_path : pystr) : list pystr :=
  [ path_join project_path (str "package.json");
    path_join (path_join project_path (str "pages")) (str "index.js");
    path_join (path_join (path_join project_path (str "pages")) (str "api"))
              (str "products.js");
    path_join (path_join (path_join project_path (str "pages")) (str "category"))
              (str "[slug].js");
    path_join (path_join project_path (str "components")) (str "Navigation.js");
    path_join (path_join project_path (str "components")) (str "Hero.js");
    path_join (path_join project_path (str "components")) (str "ProductGrid.js");
    path_join (path_join project_path (str "components")) (str "ProductCard.js");
    path_join (path_join project_path (str "components")) (str "Footer.js");
    path_join (path_join project_path (str "styles")) (str "globals.css");
    path_join project_path (str "tailwind.config.js");
    path_join project_path (str "postcss.config.js");
    path_join project_path (str "next.config.js");
    path_join project_path (str ".env.example");
    path_join project_path (str "vercel.json");
    path_join project_path (str "README.md");
    path_join project_path (str "DEPLOYMENT.md") ].

(** Further scenarios. *)
Module MoreScenarios.

Import Scenario.

(** No call is answered. *)
Definition unreachable : world :=
  server [] (Content outdoor_config) (fun _ => true).

(** The products call reports its count as a text. *)
Definition count_as_text : world :=
  server [ ok_health;
           Response 200 (Some (JObj [ (str "count", JStr (str "12")) ]));
           two_sites ]
         (Content outdoor_config) (fun _ => true).

(** A directory without a [.git] entry, where every command succeeds. *)
Definition fresh_checkout : shell :=
  {| chdir_ok := fun _ => true;
     git_dir_exists := fun _ => false;
     command_ok := fun _ _ => true |}.

(** A directory with a [.git] entry, where the push is rejected. *)
Definition rejected_push : shell :=
  {| chdir_ok := fun _ => true;
     git_dir_exists := fun _ => true;
     command_ok := fun _ cmd =>
       match cmd with
       | GitPushForceMain => false
       | _ => true
       end |}.

Definition site_dir : pystr := str "generated/adventure-gear-pro".

Definition repo : pystr := str "https://github.com/example/adventure-gear-pro.git".

Definition summary : pydict :=
  [ (str "success", JBool true);
    (str "brand_name", JStr brand);
    (str "niche", JStr outdoor) ].

End MoreScenarios.

(* ===================================================================== *)
(** * Properties *)
(* ===================================================================== *)

(** ** Strings: comparison, prefixes, occurrences *)

Section StringFacts.

Lemma eqb_str_spec (a b : pystr) : eqb_str a b = true <-> a = b.
Proof.
  revert b; induction a as [|x a IH]; intros [|y b]; simpl;
    try (split; [discriminate | discriminate]); try tauto.
  rewrite andb_true_iff, Ascii.eqb_eq, IH.
  split; [intros [-> ->]; reflexivity | intros H; inversion H; auto].
Qed.

Lemma eqb_str_refl (a : pystr) : eqb_str a a = true.
Proof. apply eqb_str_spec; reflexivity. Qed.

Lemma starts_with_spec (p t : pystr) :
  starts_with p t = true <-> exists r, t = p ++ r.
Proof.
  revert t; induction p as [|a p IH]; intros t; simpl.
  - split; [intros _; exists t; reflexivity | reflexivity].
  - destruct t as [|b t].
    + split; [discriminate | intros [r Hr]; discriminate].
    + rewrite andb_true_iff, Ascii.eqb_eq, IH.
      split.
      * intros [-> [r ->]]. exists r; reflexivity.
      * intros [r Hr]. inversion Hr; subst. split; [reflexivity | exists r; reflexivity].
Qed.

Lemma starts_with_app (p r : pystr) : starts_with p (p ++ r) = true.
Proof. apply starts_with_spec; exists r; reflexivity. Qed.

Lemma contains_spec (p t : pystr) : contains p t = true <-> occurs p t.
Proof.
  induction t as [|c t IH].
  - simpl. rewrite orb_false_r, starts_with_spec. split.
    + intros [r Hr]. exists [], r. exact Hr.
    + intros [a [b Hab]]. destruct a; [exists b; exact Hab | discriminate].
  - simpl. rewrite orb_true_iff, starts_with_spec, IH. split.
    + intros [[r Hr] | [a [b Hab]]].
      * exists [], r. exact Hr.
      * exists (c :: a), b. simpl. rewrite Hab. reflexivity.
    + intros [a [b Hab]]. destruct a as [|x a].
      * left. exists b. exact Hab.
      * right. inversion Hab; subst. exists a, b. reflexivity.
Qed.

Lemma not_occurs_contains (p t : pystr) : ~ occurs p t <-> contains p t = false.
Proof.
  rewrite <- contains_spec. destruct (contains p t); split; congruence.
Qed.

Lemma occurs_cons (p t : pystr) (c : ascii) : occurs p t -> occurs p (c :: t).
Proof. intros [a [b ->]]. exists (c :: a), b. reflexivity. Qed.

Lemma occurs_app_l (p t u : pystr) : occurs p t -> occurs p (u ++ t).
Proof.
  intros [a [b ->]]. exists (u ++ a), b. rewrite <- app_assoc. reflexivity.
Qed.

(** The two equations of the scan, in the form the proofs use. *)
Lemma replace_scan_hit (old new t : pystr) (c : ascii) :
  starts_with old (c :: t) = true ->
  replace_scan old new (c :: t)
  = new ++ replace_scan old new (skipn (Nat.pred (length old)) t).
Proof. intros H. simp replace_scan. rewrite H. reflexivity. Qed.

Lemma replace_scan_miss (old new t : pystr) (c : ascii) :
  starts_with old (c :: t) = false ->
  replace_scan old new (c :: t) = c :: replace_scan old new t.
Proof. intros H. simp replace_scan. rewrite H. reflexivity. Qed.

(** Replacing a pattern that does not occur changes nothing. *)
Lemma replace_scan_absent (old new t : pystr) :
  contains old t = false -> replace_scan old new t = t.
Proof.
  induction t as [|c t IH]; intros H.
  - simp replace_scan. reflexivity.
  - simpl in H. apply orb_false_iff in H as [Hs Hc].
    rewrite replace_scan_miss by exact Hs. rewrite IH by exact Hc. reflexivity.
Qed.

End StringFacts.

(** ** The brand slug *)

Section BrandSlug.

Lemma replace_one_char (a b : ascii) (t : pystr) :
  replace [a] [b] t = map (swap_char a b) t.
Proof.
  unfold replace. induction t as [|c t IH].
  - simp replace_scan. reflexivity.
  - destruct (Ascii.eqb a c) eqn:E.
    + rewrite replace_scan_hit by (simpl; rewrite E; reflexivity).
      simpl. unfold swap_char at 1. rewrite E, IH. reflexivity.
    + rewrite replace_scan_miss by (simpl; rewrite E; reflexivity).
      simpl. unfold swap_char at 1. rewrite E, IH. reflexivity.
Qed.

Lemma swap_space_then_underscore (c : ascii) :
  swap_char underscore hyphen (swap_char space hyphen c)
  = if Ascii.eqb c space || Ascii.eqb c underscore then hyphen else c.
Proof.
  unfold swap_char.
  rewrite (Ascii.eqb_sym c space), (Ascii.eqb_sym c underscore).
  destruct (Ascii.eqb space c) eqn:E1; simpl.
  - reflexivity.
  - reflexivity.
Qed.

(** C6. For every brand name [b], the slug of [format_brand_name b] is the
    string obtained by lower-casing [b], turning every space and every
    underscore into a hyphen, and then deleting every character that is
    neither alphanumeric nor a hyphen. *)
Theorem format_brand_name_slug_spec (b : pystr) :
  slug (format_brand_name b) = spec_slug b.
Proof.
  unfold format_brand_name, spec_slug, lower. cbn [slug].
  change (str "_") with [underscore].
  change (str "-") with [hyphen].
  change (str " ") with [space].
  rewrite !replace_one_char.
  f_equal. rewrite !map_map.
  apply map_ext. intros c. apply swap_space_then_underscore.
Qed.

End BrandSlug.

(** ** The template renderer *)

Section Renderer.

Lemma placeholder_not_empty (key : pystr) : placeholder key <> [].
Proof. discriminate. Qed.

Lemma replace_placeholder_absent (key new t : pystr) :
  ~ occurs (placeholder key) t -> replace (placeholder key) new t = t.
Proof.
  intros H. apply not_occurs_contains in H.
  unfold replace. change (placeholder key) with (lbrace :: lbrace :: key ++ str "}}") in *.
  apply replace_scan_absent. exact H.
Qed.

Lemma render_step_absent (t : pystr) (kv : pystr * json) :
  ~ occurs (placeholder (fst kv)) t -> render_step t kv = t.
Proof.
  destruct kv as [key value]. simpl. intros H.
  apply replace_placeholder_absent. exact H.
Qed.

(** C7. For every context and every template that contains no placeholder
    token of a key of the context, [render_template] returns the template
    unchanged. *)
Theorem render_template_without_placeholders
    (template_content : pystr) (variables : pydict) :
  (forall k, In k (map fst variables) -> ~ occurs (placeholder k) template_content) ->
  render_template template_content variables = template_content.
Proof.
  unfold render_template.
  induction variables as [|kv rest IH]; intros H.
  - reflexivity.
  - simpl. rewrite render_step_absent.
    + apply IH. intros k Hk. apply H. right. exact Hk.
    + apply H. left. reflexivity.
Qed.

Lemma render_template_without_placeholders_witness :
  render_template (str "<h1>{{title}}</h1> {not a token}")
    [ (str "brand_name", JStr (str "Adventure Gear Pro"));
      (str "total_products", JNum 12) ]
  = str "<h1>{{title}}</h1> {not a token}".
Proof.
  apply render_template_without_placeholders.
  intros k [<- | [<- | []]]; apply not_occurs_contains; vm_compute; reflexivity.
Defined.

(** *** Tokens that survive a replacement *)

Section Survival.

(** [P] is the pattern replaced and [Q] a text to be preserved; neither
    starts inside an occurrence of the other. *)
Variables P Q new : pystr.
Hypothesis P_not_empty : P <> [].
Hypothesis P_not_inside_Q :
  forall q1 q2 r, Q = q1 ++ q2 -> q2 <> [] -> starts_with P (q2 ++ r) = false.
Hypothesis Q_not_inside_P :
  forall p1 p2 r, P = p1 ++ p2 -> p2 <> [] -> starts_with Q (p2 ++ r) = false.

Lemma replace_scan_after_match (r : pystr) :
  replace_scan P new (P ++ r) = new ++ replace_scan P new r.
Proof.
  destruct P as [|c p] eqn:E; [contradiction|].
  simpl app at 1. rewrite replace_scan_hit.
  - simpl length. simpl Nat.pred.
    rewrite skipn_app, skipn_all, Nat.sub_diag. reflexivity.
  - change (c :: p ++ r) with ((c :: p) ++ r). apply starts_with_app.
Qed.

Lemma replace_scan_through (b q2 q1 : pystr) :
  Q = q1 ++ q2 ->
  replace_scan P new (q2 ++ b) = q2 ++ replace_scan P new b.
Proof.
  revert q1. induction q2 as [|c q2 IH]; intros q1 HQ.
  - reflexivity.
  - simpl app. rewrite replace_scan_miss.
    + f_equal. apply (IH (q1 ++ [c])). rewrite <- app_assoc. exact HQ.
    + apply (@P_not_inside_Q q1 (c :: q2) b HQ). discriminate.
Qed.

Lemma replace_scan_keeps_at (n : nat) :
  forall a b, length a <= n -> occurs Q (replace_scan P new (a ++ Q ++ b)).
Proof.
  induction n as [|n IH]; intros a b Hlen.
  - destruct a; [|simpl in Hlen; lia].
    simpl app. rewrite (replace_scan_through b Q []) by reflexivity.
    exists [], (replace_scan P new b). reflexivity.
  - destruct a as [|c a].
    + apply IH. simpl; lia.
    + destruct (starts_with P ((c :: a) ++ Q ++ b)) eqn:E.
      * apply starts_with_spec in E as [r Hr].
        rewrite Hr, replace_scan_after_match.
        apply occurs_app_l.
        apply app_eq_app in Hr as [l [[Ha Hr] | [HP Hr]]].
        -- (* the match ends before the token *)
           subst r. apply IH.
           assert (length (c :: a) = length (P ++ l)) as Hl by (rewrite Ha; reflexivity).
           rewrite length_app in Hl. simpl in Hl, Hlen.
           destruct P; [contradiction | simpl in Hl; lia].
        -- (* the match would run into the token *)
           destruct l as [|x l].
           ++ simpl in Hr. subst r. apply (IH []). simpl; lia.
           ++ exfalso.
              pose proof (@Q_not_inside_P (c :: a) (x :: l) r HP) as HQ.
              rewrite <- Hr, starts_with_app in HQ.
              discriminate HQ. discriminate.
      * simpl app. simpl app in E. rewrite replace_scan_miss by exact E.
        apply occurs_cons. apply IH. simpl in Hlen; lia.
Qed.

Lemma replace_scan_keeps (t : pystr) :
  occurs Q t -> occurs Q (replace_scan P new t).
Proof.
  intros [a [b ->]]. apply replace_scan_keeps_at with (n := length a). lia.
Qed.

End Survival.

(** *** Placeholder tokens of brace-free keys never overlap *)

Lemma placeholder_unfold (key : pystr) :
  placeholder key = lbrace :: lbrace :: key ++ [rbrace; rbrace].
Proof. reflexivity. Qed.

Lemma brace_free_forall (key : pystr) :
  brace_free key = true -> Forall (fun c => c <> lbrace /\ c <> rbrace) key.
Proof.
  unfold brace_free. rewrite forallb_forall, Forall_forall.
  intros H c Hc. specialize (H c Hc).
  apply negb_true_iff, orb_false_iff in H as [Hl Hr].
  split; apply Ascii.eqb_neq; assumption.
Qed.

Lemma brace_free_cut (j k x y : pystr) :
  brace_free j = true -> brace_free k = true ->
  j ++ rbrace :: x = k ++ rbrace :: y -> j = k.
Proof.
  intros Hj Hk. apply brace_free_forall in Hj, Hk.
  revert k Hk. induction Hj as [|c j [_ Hc] _ IH]; intros k Hk E.
  - destruct Hk as [|d k [_ Hd] _]; [reflexivity|].
    simpl in E. inversion E. congruence.
  - destruct Hk as [|d k _ Hk].
    + simpl in E. inversion E. congruence.
    + simpl in E. inversion E. f_equal. apply IH; assumption.
Qed.

Lemma token_body_no_lbrace (key : pystr) :
  brace_free key = true ->
  Forall (fun c => c <> lbrace) (key ++ [rbrace; rbrace]).
Proof.
  intros H. apply brace_free_forall in H. apply Forall_app. split.
  - eapply Forall_impl; [|exact H]. intros c [Hc _]. exact Hc.
  - repeat constructor; discriminate.
Qed.

Lemma token_not_inside (j k : pystr) :
  brace_free j = true -> brace_free k = true -> j <> k ->
  forall q1 q2 r,
    placeholder k = q1 ++ q2 -> q2 <> [] ->
    starts_with (placeholder j) (q2 ++ r) = false.
Proof.
  intros Hj Hk Hjk q1 q2 r Hsplit Hq2.
  destruct (starts_with (placeholder j) (q2 ++ r)) eqn:E; [exfalso | reflexivity].
  apply starts_with_spec in E as [x Hx].
  rewrite !placeholder_unfold in *.
  destruct q1 as [|a [|a' q1]].
  - (* both tokens start at the same place *)
    simpl in Hsplit. subst q2. simpl in Hx. inversion Hx as [E].
    rewrite <- !app_assoc in E. simpl in E.
    apply Hjk. symmetry. eapply brace_free_cut; eassumption.
  - (* the token of [j] starts at the second brace of the token of [k] *)
    simpl in Hsplit. inversion Hsplit; subst. simpl in Hx. inversion Hx as [E].
    pose proof (token_body_no_lbrace k Hk) as Hbody.
    destruct k; simpl in E; inversion E; subst.
    inversion Hbody; congruence.
  - (* the token of [j] starts further inside the token of [k] *)
    simpl in Hsplit. inversion Hsplit as [[Ha Ha' E]].
    destruct q2 as [|c q2]; [contradiction|].
    simpl in Hx. inversion Hx; subst c.
    pose proof (token_body_no_lbrace k Hk) as Hbody.
    rewrite E in Hbody. apply Forall_app in Hbody as [_ Hbody].
    inversion Hbody; congruence.
Qed.

Lemma replace_keeps_token (j k new t : pystr) :
  brace_free j = true -> brace_free k = true -> j <> k ->
  occurs (placeholder k) t ->
  occurs (placeholder k) (replace (placeholder j) new t).
Proof.
  intros Hj Hk Hjk Hocc.
  change (replace (placeholder j) new t) with (replace_scan (placeholder j) new t).
  apply replace_scan_keeps; try assumption.
  - apply placeholder_not_empty.
  - intros q1 q2 r. apply token_not_inside; assumption.
  - intros p1 p2 r. apply token_not_inside; auto.
Qed.

Lemma dict_lookup_none_not_in (key : pystr) (d : pydict) :
  dict_lookup key d = None <-> ~ In key (map fst d).
Proof.
  induction d as [|[k v] d IH]; simpl.
  - tauto.
  - destruct (eqb_str k key) eqn:E.
    + apply eqb_str_spec in E. split; [discriminate | intros H; exfalso; apply H; left; exact E].
    + rewrite IH. split.
      * intros H [Hk | Hin]; [|exact (H Hin)].
        subst k. rewrite eqb_str_refl in E. discriminate.
      * intros H Hin. apply H. right. exact Hin.
Qed.

(** C3, as the code has it. [render_template] is a total function of the
    template and the context, with no access to the outside world; and for
    every key [k] without brace characters that is referenced by a token
    [{{k}}] of the template and absent from a context whose keys have no
    brace characters either, the token is still in the output. *)
Theorem render_template_keeps_missing_tokens
    (template_content : pystr) (variables : pydict) (k : pystr) :
  (forall j, In j (map fst variables) -> brace_free j = true) ->
  brace_free k = true ->
  dict_lookup k variables = None ->
  occurs (placeholder k) template_content ->
  occurs (placeholder k) (render_template template_content variables).
Proof.
  unfold render_template. rewrite dict_lookup_none_not_in.
  revert template_content.
  induction variables as [|[j v] rest IH]; intros t Hkeys Hk Hnot Hocc.
  - exact Hocc.
  - simpl fold_left. apply IH.
    + intros j' Hj'. apply Hkeys. right. exact Hj'.
    + exact Hk.
    + intros Hin. apply Hnot. right. exact Hin.
    + unfold render_step. apply replace_keeps_token.
      * apply Hkeys. left. reflexivity.
      * exact Hk.
      * intros ->. apply Hnot. left. reflexivity.
      * exact Hocc.
Qed.

Lemma render_template_keeps_missing_tokens_witness :
  occurs (placeholder (str "tagline"))
    (render_template (str "<h1>{{brand_name}}</h1><p>{{tagline}}</p>")
       [ (str "brand_name", JStr (str "Adventure Gear Pro"));
         (str "sample_products", JArr [JNum 1; JNum 2]) ]).
Proof.
  apply render_template_keeps_missing_tokens.
  - intros j [<- | [<- | []]]; reflexivity.
  - reflexivity.
  - reflexivity.
  - apply contains_spec. vm_compute. reflexivity.
Defined.

(** C3 as stated fails on keys with braces: with the context [{a: X}], the
    template [{{{{a}}}}] holds the token of the absent key [{{a}}], and the
    output [{{X}}] does not. *)
Lemma render_template_loses_a_token :
  let template_content := str "{{{{a}}}}" in
  let variables := [ (str "a", JStr (str "X")) ] in
  let k := str "{{a}}" in
  occurs (placeholder k) template_content
  /\ dict_lookup k variables = None
  /\ render_template template_content variables = str "{{X}}"
  /\ ~ occurs (placeholder k) (render_template template_content variables).
Proof.
  cbv zeta. repeat split.
  - apply contains_spec. vm_compute. reflexivity.
  - apply not_occurs_contains. vm_compute. reflexivity.
Qed.

End Renderer.

(** ** The status check *)

Section StatusCheck.

Variable w : world.

Ltac case_step :=
  match goal with
  | |- context [http_get w ?n ?u] =>
      let E := fresh "Ecall" in
      destruct (http_get w n u) as [? | ? ?] eqn:E
  | |- context [(?c =? 200)%Z] =>
      let E := fresh "Estatus" in destruct (c =? 200)%Z eqn:E
  | |- context [match ?b with Some _ => _ | None => _ end] =>
      is_var b; destruct b
  | |- context [match dict_lookup ?k ?d with Some _ => _ | None => _ end] =>
      let E := fresh "Elookup" in destruct (dict_lookup k d) eqn:E
  | |- context [match ?v with
                | JNull => _ | JBool _ => _ | JNum _ => _
                | JStr _ => _ | JArr _ => _ | JObj _ => _ end] =>
      is_var v; destruct v
  | |- context [if ?c then _ else _] => is_var c; destruct c
  | |- context [if (?m =? 0)%Z then _ else _] => destruct (m =? 0)%Z
  end; cbv beta iota; cbn [status_code body count_call calls negb].

Ltac failure_cases H :=
  let k := fresh "k" in
  let u := fresh "u" in
  let Hlt := fresh "Hlt" in
  let Hu := fresh "Hu" in
  let Hget := fresh "Hget" in
  destruct H as (k & u & Hlt & Hu & Hget);
  cbn [calls count_call] in Hlt;
  destruct k as [|[|[|k]]];
  cbn [nth_error status_urls quick_status_urls] in Hu;
  try lia; try discriminate Hu;
  apply (f_equal (fun o => match o with Some x => x | None => u end)) in Hu;
  cbv beta iota in Hu; subst u;
  rewrite ?Nat.add_succ_r, ?Nat.add_0_r in Hget;
  try congruence.

Lemma get_server_status_total (gcs_url : pystr) (st : state) :
  exists d st',
    get_server_status w gcs_url st = (Ok d, st')
    /\ forall e, issued_call_failed w (status_urls gcs_url) st st' e ->
         dict_lookup (str "healthy") d = Some (JBool false)
         /\ dict_lookup (str "error") d = Some (JStr (str_exn e)).
Proof.
  cbv [get_server_status try_except bind ret raise throw requests_get
       response_json py_get get_or].
  cbn [status_code body count_call calls].
  repeat case_step.
  all: eexists _, _; (split; [reflexivity|]); intros x H; failure_cases H.
  all: split; [reflexivity | cbn; congruence].
Qed.

Lemma check_server_status_total (server_url : pystr) (st : state) :
  exists d st',
    check_server_status w server_url st = (Ok d, st')
    /\ forall e, issued_call_failed w (quick_status_urls server_url) st st' e ->
         dict_lookup (str "success") d = Some (JBool false)
         /\ dict_lookup (str "error") d = Some (JStr (str_exn e)).
Proof.
  cbv [check_server_status try_except bind ret raise throw requests_get
       response_json py_get get_or py_eq_int py_slice_to].
  cbn [status_code body count_call calls].
  repeat case_step.
  all: eexists _, _; (split; [reflexivity|]); intros x H; failure_cases H.
  all: split; [reflexivity | cbn; congruence].
Qed.

(** C2. The status check never raises: whatever the server does, both
    [get_server_status] and [check_server_status] return a record; and when
    one of the calls they issued failed with a transport error, the record
    has [healthy] (respectively [success]) false and the text of that error
    under [error]. *)
Theorem status_check_never_raises (base : pystr) (st : state) :
  (exists d st',
     get_server_status w base st = (Ok d, st')
     /\ forall e, issued_call_failed w (status_urls base) st st' e ->
          dict_lookup (str "healthy") d = Some (JBool false)
          /\ dict_lookup (str "error") d = Some (JStr (str_exn e)))
  /\
  (exists d st',
     check_server_status w base st = (Ok d, st')
     /\ forall e, issued_call_failed w (quick_status_urls base) st st' e ->
          dict_lookup (str "success") d = Some (JBool false)
          /\ dict_lookup (str "error") d = Some (JStr (str_exn e))).
Proof.
  split.
  - apply get_server_status_total.
  - apply check_server_status_total.
Qed.

(** C4, as the code has it.  When the health call and the products call
    let the check reach the sites call: a non-200 answer gives the record an
    empty [available_sites]; a 200 answer with a JSON object gives it the
    [sites] entry of the object, the empty list when there is none; and a
    transport failure gives the failure record, which has no
    [available_sites] entry at all. *)
Theorem available_sites_by_outcome
    (gcs_url : pystr) (st st' : state) (d : pydict)
    (health_code products_code : Z) (health_body products_body : option json) :
  get_server_status w gcs_url st = (Ok d, st') ->
  http_get w (calls st) (gcs_url ++ str "/health")
    = Response health_code health_body ->
  http_get w (S (calls st)) (gcs_url ++ str "/products")
    = Response products_code products_body ->
  ((products_code =? 200)%Z = true -> exists obj, products_body = Some (JObj obj)) ->
  (forall c b,
     http_get w (S (S (calls st))) (gcs_url ++ str "/sites") = Response c b ->
     (c =? 200)%Z = false ->
     dict_lookup (str "available_sites") d = Some (JArr []))
  /\ (forall obj,
       http_get w (S (S (calls st))) (gcs_url ++ str "/sites")
         = Response 200 (Some (JObj obj)) ->
       dict_lookup (str "available_sites") d
       = Some (match dict_lookup (str "sites") obj with
               | Some sites => sites
               | None => JArr []
               end))
  /\ (forall e,
       http_get w (S (S (calls st))) (gcs_url ++ str "/sites") = TransportError e ->
       dict_lookup (str "available_sites") d = None
       /\ dict_lookup (str "healthy") d = Some (JBool false)
       /\ dict_lookup (str "error") d = Some (JStr (str_exn e))).
Proof.
  intros Hrun Hhealth Hproducts Hbody. revert Hrun.
  cbv [get_server_status try_except bind ret raise throw requests_get
       response_json py_get get_or].
  cbn [status_code body count_call calls].
  repeat case_step.
  all: intros Hrun; injection Hrun as <- <-.
  all: try discriminate Hhealth; try discriminate Hproducts.
  all: injection Hhealth as ? ?; injection Hproducts as ? ?; subst.
  all: try match goal with
           | Hb : (?c =? 200)%Z = true -> _, E : (?c =? 200)%Z = true |- _ =>
               let Ho := fresh "Ho" in
               destruct (Hb E) as [? Ho]; try discriminate Ho
           end.
  all: repeat split; intros; try discriminate; try congruence.
  all: cbn in *;
    repeat match goal with
           | H : Response _ _ = Response _ _ |- _ => injection H as ? ?; subst
           | H : TransportError _ = TransportError _ |- _ => injection H as ?; subst
           | H : Some _ = Some _ |- _ => injection H as ?; subst
           end;
    try congruence.
  all: try (match goal with
       | E : dict_lookup _ ?o = _ |- context [dict_lookup _ ?o] => rewrite E
       end; reflexivity).
  all: match goal with
       | E : (200 =? 200)%Z = false |- _ => vm_compute in E; discriminate E
       end.
Qed.

End StatusCheck.

Section StatusCheckScenarios.

Import Scenario.

(** C4 as stated fails when the sites call fails with a transport error:
    the record returned is the failure record, which has no
    [available_sites] entry. *)
Lemma available_sites_absent_after_transport_failure :
  http_get sites_down 2 (gcs ++ str "/sites") = TransportError timed_out
  /\ get_server_status sites_down gcs start
     = (Ok [ (str "healthy", JBool false);
             (str "error", JStr (message timed_out));
             (str "url", JStr gcs);
             (str "last_checked", JStr (str "now")) ],
        {| calls := 3; dirs := []; files := [] |})
  /\ dict_lookup (str "available_sites")
       [ (str "healthy", JBool false);
         (str "error", JStr (message timed_out));
         (str "url", JStr gcs);
         (str "last_checked", JStr (str "now")) ] = None.
Proof. repeat split. Qed.

Lemma available_sites_by_outcome_witness :
  exists d st',
    get_server_status healthy_server gcs start = (Ok d, st')
    /\ dict_lookup (str "available_sites") d
       = Some (JArr [JStr (str "amazon"); JStr (str "cabelas")]).
Proof.
  eassert (Hrun : get_server_status healthy_server gcs start = (Ok _, _))
    by (vm_compute; reflexivity).
  eexists _, _. split; [exact Hrun|].
  refine (proj1 (proj2
            (@available_sites_by_outcome healthy_server gcs start _ _
               200 200 (Some (JObj [])) _ Hrun eq_refl eq_refl _)) _ eq_refl).
  intros _. eexists. reflexivity.
Defined.

End StatusCheckScenarios.

(** ** The generator: template variables and the API route *)

Section ApiRoute.

Variable w : world.

(** What [build_template_vars] returns when it returns: the sample is the
    first six products. *)
Lemma build_template_vars_sample
    (brand_name api_url : pystr) (niche_config : json) (pd : pydict)
    (ps : list json) (st st' : state) (tv : pydict) :
  build_template_vars w brand_name niche_config (JObj pd) api_url st = (Ok tv, st') ->
  dict_lookup (str "products") pd = Some (JArr ps) ->
  st' = st
  /\ exists total color_scheme content_strategy,
      tv = [ (str "brand_name", JStr brand_name);
             (str "brand_slug", JStr (slug (format_brand_name brand_name)));
             (str "api_url", JStr api_url);
             (str "niche_config", niche_config);
             (str "sample_products", JArr (firstn 6 ps));
             (str "total_products", total);
             (str "generated_at", JStr (now_iso w));
             (str "color_scheme", color_scheme);
             (str "content_strategy", content_strategy) ].
Proof.
  intros Hrun Hps. revert Hrun.
  cbv [build_template_vars bind ret raise throw py_get get_or py_slice_to].
  rewrite Hps.
  destruct niche_config as [ | | | | | cfg]; try discriminate.
  destruct (dict_lookup (str "design_config") cfg) as [[ | | | | | dc]|];
    try discriminate;
    intros Hrun; injection Hrun as <- <-; (split; [reflexivity|]);
    eexists _, _, _; reflexivity.
Qed.

(** C10. In the route text that [_create_api_route] produces from the
    template variables of a run, the fallback payload declares as [count]
    the number of sample products, at most six, and embeds as [products]
    only the first three of them; with more than three sample products the
    declared count exceeds the length of the embedded array. *)
Theorem fallback_count_exceeds_embedded_products
    (brand_name api_url : pystr) (niche_config : json) (pd : pydict)
    (ps : list json) (st st' : state) (tv : pydict) :
  build_template_vars w brand_name niche_config (JObj pd) api_url st = (Ok tv, st') ->
  dict_lookup (str "products") pd = Some (JArr ps) ->
  let sample := firstn 6 ps in
  let embedded := firstn 3 sample in
  dict_lookup (str "sample_products") tv = Some (JArr sample)
  /\ length sample <= 6
  /\ fallback_count tv st' = (Ok (Z.of_nat (length sample)), st')
  /\ fallback_products tv st' = (Ok (JArr embedded), st')
  /\ _create_api_route tv st'
     = (Ok (api_route_head ++ api_url
            ++ api_route_count ++ of_Z (Z.of_nat (length sample))
            ++ api_route_products ++ json_dumps (JArr embedded) 6
            ++ api_route_tail), st')
  /\ (3 < length sample ->
      length embedded = 3
      /\ (Z.of_nat (length embedded) < Z.of_nat (length sample))%Z).
Proof.
  intros Hrun Hps sample embedded.
  destruct (build_template_vars_sample _ _ _ _ _ Hrun Hps)
    as [-> (total & scheme & content & ->)].
  assert (Hsample :
    dict_lookup (str "sample_products")
      [ (str "brand_name", JStr brand_name);
        (str "brand_slug", JStr (slug (format_brand_name brand_name)));
        (str "api_url", JStr api_url);
        (str "niche_config", niche_config);
        (str "sample_products", JArr (firstn 6 ps));
        (str "total_products", total);
        (str "generated_at", JStr (now_iso w));
        (str "color_scheme", scheme);
        (str "content_strategy", content) ] = Some (JArr sample))
    by reflexivity.
  assert (Hcount :
    fallback_count
      [ (str "brand_name", JStr brand_name);
        (str "brand_slug", JStr (slug (format_brand_name brand_name)));
        (str "api_url", JStr api_url);
        (str "niche_config", niche_config);
        (str "sample_products", JArr (firstn 6 ps));
        (str "total_products", total);
        (str "generated_at", JStr (now_iso w));
        (str "color_scheme", scheme);
        (str "content_strategy", content) ] st
    = (Ok (Z.of_nat (length sample)), st))
    by reflexivity.
  assert (Hproducts :
    fallback_products
      [ (str "brand_name", JStr brand_name);
        (str "brand_slug", JStr (slug (format_brand_name brand_name)));
        (str "api_url", JStr api_url);
        (str "niche_config", niche_config);
        (str "sample_products", JArr (firstn 6 ps));
        (str "total_products", total);
        (str "generated_at", JStr (now_iso w));
        (str "color_scheme", scheme);
        (str "content_strategy", content) ] st
    = (Ok (JArr embedded), st))
    by reflexivity.
  refine (conj Hsample (conj _ (conj Hcount (conj Hproducts (conj _ _))))).
  - apply firstn_le_length.
  - unfold _create_api_route, bind. cbn [py_subscript].
    change (dict_lookup (str "api_url") _) with (Some (JStr api_url)).
    cbv beta iota. unfold ret at 1. rewrite Hcount, Hproducts. reflexivity.
  - intros Hmore. unfold embedded. rewrite length_firstn. lia.
Qed.

End ApiRoute.

Section ApiRouteScenario.

Import Scenario.

Lemma fallback_count_exceeds_embedded_products_witness :
  exists tv,
    build_template_vars healthy_server (str "Adventure Gear Pro") outdoor_config
      (JObj products_body) gcs start = (Ok tv, start)
    /\ fallback_count tv start = (Ok 4%Z, start)
    /\ fallback_products tv start
       = (Ok (JArr [product "Tent" 199; product "Stove" 49; product "Boots" 120]),
          start)
    /\ (Z.of_nat (length (firstn 3 four_products)) < 4)%Z.
Proof.
  eassert (Hrun : build_template_vars healthy_server (str "Adventure Gear Pro")
                    outdoor_config (JObj products_body) gcs start = (Ok _, _))
    by (vm_compute; reflexivity).
  pose proof (@fallback_count_exceeds_embedded_products healthy_server _ _ _ _
                four_products _ _ _ Hrun eq_refl) as H.
  cbv zeta in H. destruct H as (_ & _ & Hcount & Hproducts & _ & Hmore).
  eexists. split; [exact Hrun|]. split; [exact Hcount|]. split; [exact Hproducts|].
  apply Hmore. simpl. lia.
Defined.

End ApiRouteScenario.

(** ** The publisher and the deployment record *)

Section Publisher.

Import Scenario.

(** C8, as the code has it.  [deploy_to_vercel] issues no call and writes
    nothing; whatever the project path, the API URL and the token, it
    returns the same success record, whose URL is built from the slug of the
    fixed brand name [Adventure Gear Pro]. *)
Theorem deploy_to_vercel_is_simulated
    (w : world) (project_path api_url : pystr) (vercel_token : option pystr)
    (st : state) :
  deploy_to_vercel w project_path api_url vercel_token st
  = (Ok [ (str "success", JBool true);
          (str "vercel_url", JStr (str "https://adventure-gear-pro.vercel.app"));
          (str "deployment_time", JNum 45) ],
     st)
  /\ str "https://adventure-gear-pro.vercel.app"
     = str "https://" ++ slug (format_brand_name (str "Adventure Gear Pro"))
       ++ str ".vercel.app".
Proof. split; reflexivity. Qed.

(** C8 as stated fails for any other brand: the project generated for the
    brand [Trail Mix] lies at [generated/trail-mix], and deploying it returns
    the URL of [adventure-gear-pro]. *)
Lemma deploy_to_vercel_ignores_the_project :
  let brand := str "Trail Mix" in
  let project_path := path_join (str "generated") (slug (format_brand_name brand)) in
  project_path = str "generated/trail-mix"
  /\ deploy_to_vercel healthy_server project_path gcs None start
     = (Ok [ (str "success", JBool true);
             (str "vercel_url", JStr (str "https://adventure-gear-pro.vercel.app"));
             (str "deployment_time", JNum 45) ],
        start)
  /\ str "https://adventure-gear-pro.vercel.app"
     <> str "https://" ++ slug (format_brand_name brand) ++ str ".vercel.app".
Proof.
  cbv zeta. split; [reflexivity|]. split; [reflexivity|].
  vm_compute. discriminate.
Qed.

(** C9 at a brand name with an apostrophe and an underscore: the record is
    written under the name that [lower] and the replacement of spaces give,
    which is not the slug of [format_brand_name] followed by
    [-deployment.json]. *)
Theorem deployment_record_name_is_not_the_slug :
  let brand := str "Mike's Gear_Shop" in
  let summary := [ (str "success", JBool true); (str "brand_name", JStr brand) ] in
  deployment_file_name brand = str "mike's-gear_shop-deployment.json"
  /\ slug (format_brand_name brand) ++ str "-deployment.json"
     = str "mikes-gear-shop-deployment.json"
  /\ map fst (files (snd (_save_deployment_record healthy_server summary start)))
     = [ str "deployed/mike's-gear_shop-deployment.json" ].
Proof. cbv zeta. repeat split. Qed.

End Publisher.

(** ** The generator: running a computation step by step *)

Section Generator.

Variable w : world.

Lemma bind_run {A B} (c : M A) (k : A -> M B) (st st2 : state) (a : A) :
  c st = (Ok a, st2) -> bind c k st = k a st2.
Proof. intros H. unfold bind. rewrite H. reflexivity. Qed.

(** The soft failure of the fetch. *)
Lemma fetch_soft_fail (api_url : pystr) (st : state) :
  fetch_fails w (calls st) api_url ->
  _fetch_product_data w api_url st = (Ok (JObj empty_sample), count_call st).
Proof.
  unfold fetch_fails, _fetch_product_data, try_except, bind, requests_get.
  destruct (http_get w (calls st) (api_url ++ str "/products")) as [e | c b].
  - reflexivity.
  - intros Hc. cbn [status_code]. rewrite Hc. reflexivity.
Qed.

(** The paths of the site files, one by one. *)
Lemma generated_paths_flat (project_path : pystr) :
  [ path_join project_path (str "package.json");
    path_join (path_join project_path (str "pages")) (str "index.js");
    path_join (path_join (path_join project_path (str "pages")) (str "api"))
              (str "products.js");
    path_join (path_join (path_join project_path (str "pages")) (str "category"))
              (str "[slug].js");
    path_join (path_join project_path (str "components")) (str "Navigation.js");
    path_join (path_join project_path (str "components")) (str "Hero.js");
    path_join (path_join project_path (str "components")) (str "ProductGrid.js");
    path_join (path_join project_path (str "components")) (str "ProductCard.js");
    path_join (path_join project_path (str "components")) (str "Footer.js");
    path_join (path_join project_path (str "styles")) (str "globals.css");
    path_join project_path (str "tailwind.config.js");
    path_join project_path (str "postcss.config.js");
    path_join project_path (str "next.config.js");
    path_join project_path (str ".env.example");
    path_join project_path (str "vercel.json");
    path_join project_path (str "README.md");
    path_join project_path (str "DEPLOYMENT.md") ]
  = site_paths project_path.
Proof.
  unfold site_paths, site_files. cbn.
  rewrite <- !app_assoc. reflexivity.
Qed.

End Generator.

(** ** More on brand names *)

Section BrandNames.

Lemma replace_char_by_nothing (a : ascii) (t : pystr) :
  replace [a] [] t = filter (fun c => negb (Ascii.eqb a c)) t.
Proof.
  unfold replace. induction t as [|c t IH].
  - simp replace_scan. reflexivity.
  - destruct (Ascii.eqb a c) eqn:E.
    + rewrite replace_scan_hit by (simpl; rewrite E; reflexivity).
      simpl. rewrite E, IH. reflexivity.
    + rewrite replace_scan_miss by (simpl; rewrite E; reflexivity).
      simpl. rewrite E, IH. reflexivity.
Qed.

Lemma slug_as_filter (b : pystr) :
  slug (format_brand_name b)
  = filter (fun c => isalnum c || Ascii.eqb c hyphen)
      (map (fun c => swap_char underscore hyphen (swap_char space hyphen (lower_char c))) b).
Proof.
  unfold format_brand_name, lower. cbn [slug].
  change (str "_") with [underscore].
  change (str "-") with [hyphen].
  change (str " ") with [space].
  rewrite !replace_one_char, !map_map. reflexivity.
Qed.

(** X1. The slug holds only alphanumeric characters and hyphens, and is
    never longer than the brand name. *)
Theorem slug_is_filesystem_safe (b : pystr) :
  Forall (fun c => isalnum c = true \/ c = hyphen) (slug (format_brand_name b))
  /\ length (slug (format_brand_name b)) <= length b.
Proof.
  rewrite slug_as_filter. split.
  - apply Forall_forall. intros c Hc. apply filter_In in Hc as [_ Hc].
    apply orb_true_iff in Hc as [Hc | Hc]; [left; exact Hc | right].
    apply Ascii.eqb_eq. exact Hc.
  - etransitivity; [apply filter_length_le|]. rewrite length_map. reflexivity.
Qed.

Lemma hyphenated_char_fixed (c : ascii) :
  let c1 := swap_char underscore hyphen (swap_char space hyphen (lower_char c)) in
  isalnum c1 || Ascii.eqb c1 hyphen = true ->
  swap_char underscore hyphen (swap_char space hyphen (lower_char c1)) = c1.
Proof.
  destruct c as [[] [] [] [] [] [] [] []]; vm_compute; intros H;
    first [reflexivity | discriminate H].
Qed.

(** X2. Deriving the slug of a slug changes nothing. *)
Theorem slug_idempotent (b : pystr) :
  slug (format_brand_name (slug (format_brand_name b)))
  = slug (format_brand_name b).
Proof.
  rewrite (slug_as_filter (slug (format_brand_name b))), (slug_as_filter b).
  induction b as [|c b IH].
  - reflexivity.
  - cbn [map filter].
    destruct (isalnum _ || Ascii.eqb _ hyphen) eqn:E.
    + cbn [map filter]. rewrite (hyphenated_char_fixed c E), E, IH. reflexivity.
    + exact IH.
Qed.

(** X3. The component name is the brand name without its spaces, hyphens
    and underscores; none of the three is left in it. *)
Theorem component_has_no_separator (b : pystr) :
  component (format_brand_name b)
  = filter (fun c => negb (Ascii.eqb c space || Ascii.eqb c hyphen
                           || Ascii.eqb c underscore)) b
  /\ ~ In space (component (format_brand_name b))
  /\ ~ In hyphen (component (format_brand_name b))
  /\ ~ In underscore (component (format_brand_name b)).
Proof.
  assert (E : component (format_brand_name b)
              = filter (fun c => negb (Ascii.eqb c space || Ascii.eqb c hyphen
                                       || Ascii.eqb c underscore)) b).
  { unfold format_brand_name. cbn [component].
    change (str "_") with [underscore].
    change (str "-") with [hyphen].
    change (str " ") with [space].
    change (str "") with (@nil ascii).
    rewrite !replace_char_by_nothing.
    induction b as [|c b IH]; [reflexivity|].
    cbn [filter].
    rewrite (Ascii.eqb_sym c space), (Ascii.eqb_sym c hyphen),
            (Ascii.eqb_sym c underscore).
    destruct (Ascii.eqb space c); cbn [negb orb filter]; [exact IH|].
    destruct (Ascii.eqb hyphen c); cbn [negb orb filter]; [exact IH|].
    destruct (Ascii.eqb underscore c); cbn [negb orb filter]; [exact IH|].
    f_equal. exact IH. }
  rewrite E. split; [reflexivity|].
  repeat split; intros H; apply filter_In in H as [_ H]; vm_compute in H;
    discriminate H.
Qed.

Lemma plain_brand_char_slug (c : ascii) :
  plain_brand_char c = true ->
  let c1 := swap_char underscore hyphen (swap_char space hyphen (lower_char c)) in
  c1 = swap_char space hyphen (lower_char c)
  /\ isalnum c1 || Ascii.eqb c1 hyphen = true.
Proof.
  destruct c as [[] [] [] [] [] [] [] []]; vm_compute; intros H;
    first [split; reflexivity | discriminate H].
Qed.

(** X4. For a brand name within U+0000..U+00FF made of alphanumeric
    characters, spaces and hyphens only, the name under which
    [_save_deployment_record] writes the record is the slug of
    [format_brand_name] followed by [-deployment.json].  (The range is that
    of the strings of this development: outside it lower-casing may produce
    a character that the slug drops and the record name keeps.) *)
Theorem deployment_file_name_of_plain_brand (b : pystr) :
  forallb plain_brand_char b = true ->
  deployment_file_name b = slug (format_brand_name b) ++ str "-deployment.json".
Proof.
  intros H. unfold deployment_file_name. f_equal.
  unfold record_brand_slug, lower.
  change (str "-") with [hyphen]. change (str " ") with [space].
  rewrite replace_one_char, slug_as_filter, map_map.
  induction b as [|c b IH]; [reflexivity|].
  cbn [forallb] in H. apply andb_true_iff in H as [Hc Hb].
  destruct (plain_brand_char_slug c Hc) as [E1 E2].
  cbn [map filter]. rewrite E2, E1. f_equal. apply IH. exact Hb.
Qed.

Lemma deployment_file_name_of_plain_brand_witness :
  deployment_file_name (str "Adventure Gear Pro 2")
  = slug (format_brand_name (str "Adventure Gear Pro 2")) ++ str "-deployment.json".
Proof.
  apply deployment_file_name_of_plain_brand. vm_compute. reflexivity.
Defined.

End BrandNames.

(** ** Text utilities of shared/utils.py *)

Section TextUtilities.

Lemma length_dots : length (str "...") = 3.
Proof. reflexivity. Qed.

(** X5. With a limit of at least 3, [truncate_text] never returns more than
    [max_length] characters; a longer text is cut to exactly [max_length]
    characters, its first [max_length - 3] followed by three dots; and
    truncating twice is truncating once. *)
Theorem truncate_text_within_limit (text : pystr) (max_length : Z) :
  (3 <= max_length)%Z ->
  (Z.of_nat (length (truncate_text text max_length)) <= max_length)%Z
  /\ ((max_length < Z.of_nat (length text))%Z ->
      truncate_text text max_length
      = firstn (Z.to_nat (max_length - 3)) text ++ str "..."
      /\ Z.of_nat (length (truncate_text text max_length)) = max_length)
  /\ truncate_text (truncate_text text max_length) max_length
     = truncate_text text max_length.
Proof.
  intros Hm.
  assert (Hcut : (max_length < Z.of_nat (length text))%Z ->
            truncate_text text max_length
            = firstn (Z.to_nat (max_length - 3)) text ++ str "..."
            /\ Z.of_nat (length (truncate_text text max_length)) = max_length).
  { intros Hlong. unfold truncate_text, py_slice_stop.
    destruct (Z.leb_spec (Z.of_nat (length text)) max_length) as [H|_]; [lia|].
    destruct (Z.leb_spec 0 (max_length - 3)) as [_|H]; [|lia].
    split; [reflexivity|].
    rewrite length_app, length_firstn, length_dots. lia. }
  assert (Hbound : (Z.of_nat (length (truncate_text text max_length)) <= max_length)%Z).
  { destruct (Z.leb_spec (Z.of_nat (length text)) max_length) as [H|H].
    - unfold truncate_text.
      destruct (Z.leb_spec (Z.of_nat (length text)) max_length); [exact H | lia].
    - destruct (Hcut H) as [_ ->]. lia. }
  split; [exact Hbound|]. split; [exact Hcut|].
  unfold truncate_text at 1.
  destruct (Z.leb_spec (Z.of_nat (length (truncate_text text max_length))) max_length);
    [reflexivity | lia].
Qed.

Lemma truncate_text_within_limit_witness :
  (Z.of_nat (length (truncate_text (str "Lightweight two-person tent") 10)) <= 10)%Z
  /\ ((10 < Z.of_nat (length (str "Lightweight two-person tent")))%Z ->
      truncate_text (str "Lightweight two-person tent") 10
      = firstn (Z.to_nat (10 - 3)) (str "Lightweight two-person tent") ++ str "..."
      /\ Z.of_nat (length (truncate_text (str "Lightweight two-person tent") 10)) = 10%Z)
  /\ truncate_text (truncate_text (str "Lightweight two-person tent") 10) 10
     = truncate_text (str "Lightweight two-person tent") 10.
Proof. apply truncate_text_within_limit. lia. Defined.

(** X6. With a limit below 3 the bound is lost: a text longer than the
    limit comes back longer than the limit, never shorter than the three
    dots. *)
Theorem truncate_text_small_limit (text : pystr) (max_length : Z) :
  (max_length < 3)%Z ->
  (max_length < Z.of_nat (length text))%Z ->
  (max_length < Z.of_nat (length (truncate_text text max_length)))%Z
  /\ 3 <= length (truncate_text text max_length).
Proof.
  intros Hm Hlong. unfold truncate_text.
  destruct (Z.leb_spec (Z.of_nat (length text)) max_length) as [H|_]; [lia|].
  rewrite length_app, length_dots. lia.
Qed.

Lemma truncate_text_small_limit_witness :
  (2 < Z.of_nat (length (truncate_text (str "abcdef") 2)))%Z
  /\ 3 <= length (truncate_text (str "abcdef") 2).
Proof. apply truncate_text_small_limit; simpl; lia. Defined.

Lemma Forall_on_firstn {A} (P : A -> Prop) (n : nat) (l : list A) :
  Forall P l -> Forall P (firstn n l).
Proof.
  intros H. rewrite <- (firstn_skipn n l) in H.
  apply Forall_app in H as [H _]. exact H.
Qed.

Lemma sanitize_filename_unfold (filename : pystr) :
  sanitize_filename filename
  = firstn 100
      (map (swap_char space underscore)
         (filter (fun c => negb (invalid_filename_char c)) filename)).
Proof.
  unfold sanitize_filename.
  change (str " ") with [space]. change (str "_") with [underscore].
  rewrite replace_one_char.
  destruct (Nat.ltb_spec 100
              (length (map (swap_char space underscore)
                         (filter (fun c => negb (invalid_filename_char c)) filename))))
    as [H|H].
  - reflexivity.
  - symmetry. apply firstn_all2. exact H.
Qed.

Lemma sanitized_char (c : ascii) :
  invalid_filename_char c = false ->
  invalid_filename_char (swap_char space underscore c) = false
  /\ swap_char space underscore c <> space
  /\ swap_char space underscore (swap_char space underscore c)
     = swap_char space underscore c.
Proof.
  destruct c as [[] [] [] [] [] [] [] []]; vm_compute; intros H;
    first [discriminate H | repeat split; discriminate].
Qed.

(** X7. A sanitized file name holds none of the nine invalid characters
    and no space, has at most 100 characters, and sanitizing it again
    changes nothing. *)
Theorem sanitize_filename_safe (filename : pystr) :
  Forall (fun c => invalid_filename_char c = false /\ c <> space)
         (sanitize_filename filename)
  /\ length (sanitize_filename filename) <= 100
  /\ sanitize_filename (sanitize_filename filename) = sanitize_filename filename.
Proof.
  assert (Hall : Forall (fun c => invalid_filename_char c = false /\ c <> space)
                        (sanitize_filename filename)).
  { rewrite sanitize_filename_unfold. apply Forall_on_firstn.
    apply Forall_forall. intros c Hc.
    apply in_map_iff in Hc as [c0 [<- Hc0]].
    apply filter_In in Hc0 as [_ Hc0]. apply negb_true_iff in Hc0.
    destruct (sanitized_char c0 Hc0) as (H1 & H2 & _). split; assumption. }
  assert (Hlen : length (sanitize_filename filename) <= 100).
  { rewrite sanitize_filename_unfold. rewrite length_firstn. lia. }
  split; [exact Hall|]. split; [exact Hlen|].
  rewrite (sanitize_filename_unfold (sanitize_filename filename)).
  rewrite firstn_all2.
  - clear Hlen. induction Hall as [|c l [Hc Hs] _ IH]; [reflexivity|].
    cbn [filter map]. rewrite Hc. cbn [negb map]. f_equal; [|exact IH].
    unfold swap_char. destruct (Ascii.eqb space c) eqn:E; [|reflexivity].
    apply Ascii.eqb_eq in E. congruence.
  - rewrite length_map. etransitivity; [apply filter_length_le | exact Hlen].
Qed.

(** X8. [validate_api_response] accepts a response exactly when it has a
    [count] entry and a [products] entry that is a list; whether the count
    is the number of products plays no part. *)
Theorem validate_api_response_spec (response_data : pydict) :
  validate_api_response response_data = true
  <-> (exists c, dict_lookup (str "count") response_data = Some c)
      /\ (exists ps, dict_lookup (str "products") response_data = Some (JArr ps)).
Proof.
  unfold validate_api_response, dict_has.
  destruct (dict_lookup (str "count") response_data) as [c|];
    destruct (dict_lookup (str "products") response_data) as [[ | | | | ps | ]|];
    cbn [negb]; split;
    try discriminate;
    try (intros [[? H1] [? H2]]; discriminate);
    intros _; try reflexivity; split; eexists; reflexivity.
Qed.

(** X9. [validate_environment] passes exactly when the three required
    variables are set to non-empty values; the optional variables never
    change its result. *)
Theorem validate_environment_spec (env : environment) :
  (validate_environment env = true
   <-> forall var, In var required_vars -> exists v, env var = Some v /\ v <> [])
  /\ (forall env' : environment,
        (forall var, In var required_vars -> env' var = env var) ->
        validate_environment env' = validate_environment env).
Proof.
  split.
  - unfold validate_environment.
    destruct (filter (unset env) required_vars) as [|var l] eqn:E.
    + split; [intros _ var Hvar | reflexivity].
      assert (Hu : unset env var = false).
      { destruct (unset env var) eqn:Hu; [|reflexivity].
        assert (Hin : In var (filter (unset env) required_vars))
          by (apply filter_In; split; assumption).
        rewrite E in Hin. destruct Hin. }
      unfold unset in Hu. destruct (env var) as [[|c v]|]; try discriminate Hu.
      eexists. split; [reflexivity | discriminate].
    + split; [discriminate | intros H].
      assert (Hin : In var (filter (unset env) required_vars))
        by (rewrite E; left; reflexivity).
      apply filter_In in Hin as [Hvar Hu].
      destruct (H var Hvar) as [v [Hv Hne]].
      unfold unset in Hu. rewrite Hv in Hu. destruct v; [contradiction | discriminate].
  - intros env' Hsame. unfold validate_environment.
    replace (filter (unset env') required_vars)
      with (filter (unset env) required_vars); [reflexivity|].
    apply filter_ext_in. intros var Hvar. unfold unset.
    rewrite (Hsame var Hvar). reflexivity.
Qed.

End TextUtilities.

(** ** Computations without effect *)

Section Stateless.

Lemma stateless_ret {A} (a : A) : stateless (ret a).
Proof. intros st. reflexivity. Qed.

Lemma stateless_throw {A} (k : exn_kind) (msg : pystr) : stateless (@throw A k msg).
Proof. intros st. reflexivity. Qed.

Lemma stateless_bind {A B} (c : M A) (k : A -> M B) :
  stateless c -> (forall a, stateless (k a)) -> stateless (bind c k).
Proof.
  intros Hc Hk st. unfold bind. specialize (Hc st).
  destruct (c st) as [[a | e] st1]; cbn [snd] in Hc; subst st1.
  - apply Hk.
  - reflexivity.
Qed.

Lemma stateless_run {A} (c : M A) (st st' : state) (r : exc A) :
  stateless c -> c st = (r, st') -> st' = st.
Proof. intros Hc H. specialize (Hc st). rewrite H in Hc. exact Hc. Qed.

Lemma stateless_py_get (v : json) (key : pystr) (default : json) :
  stateless (py_get v key default).
Proof. destruct v; intros st; reflexivity. Qed.

Lemma stateless_py_subscript (v : json) (key : pystr) :
  stateless (py_subscript v key).
Proof.
  destruct v as [ | | | | | d]; intros st; try reflexivity.
  cbn [py_subscript]. destruct (dict_lookup key d); reflexivity.
Qed.

Lemma stateless_py_index0 (v : json) : stateless (py_index0 v).
Proof. destruct v as [ | | | [|? ?] | [|? ?] | ]; intros st; reflexivity. Qed.

Lemma stateless_py_slice_to (n : nat) (v : json) : stateless (py_slice_to n v).
Proof. destruct v; intros st; reflexivity. Qed.

Lemma stateless_py_len (v : json) : stateless (py_len v).
Proof. destruct v; intros st; reflexivity. Qed.

Lemma stateless_py_lt_int (v : json) (n : Z) : stateless (py_lt_int v n).
Proof. destruct v; intros st; reflexivity. Qed.

Lemma stateless_py_join (sep : pystr) (v : json) : stateless (py_join sep v).
Proof.
  destruct v as [ | | | | items | ]; intros st; try reflexivity.
  cbn [py_join]. destruct (all_strings items); reflexivity.
Qed.

End Stateless.

Create HintDb pure discriminated.

#[export] Hint Resolve stateless_ret stateless_throw stateless_bind
  stateless_py_get stateless_py_subscript stateless_py_index0
  stateless_py_slice_to stateless_py_len stateless_py_lt_int
  stateless_py_join : pure.

Section StatelessTemplates.

Variable template_vars : pydict.

Lemma stateless_first_of (d : json) (key fallback : pystr) :
  stateless (first_of d key fallback).
Proof. unfold first_of. auto 10 with pure. Qed.

Lemma stateless_color_of (color_scheme : json) (slot fallback : pystr) :
  stateless (color_of color_scheme slot fallback).
Proof. unfold color_of. auto 10 with pure. Qed.

Lemma stateless_site_config_entry (key : pystr) :
  stateless (site_config_entry template_vars key).
Proof. unfold site_config_entry. auto 10 with pure. Qed.

#[local] Hint Resolve stateless_first_of stateless_color_of stateless_site_config_entry : pure.

Lemma stateless_generate_package_json :
  stateless (_generate_package_json template_vars).
Proof. unfold _generate_package_json. auto 10 with pure. Qed.

Lemma stateless_create_index_page : stateless (_create_index_page template_vars).
Proof. unfold _create_index_page. cbv zeta. auto 30 with pure. Qed.

Lemma stateless_create_api_route : stateless (_create_api_route template_vars).
Proof.
  unfold _create_api_route, fallback_count, fallback_products.
  auto 10 with pure.
Qed.

Lemma stateless_create_category_page :
  stateless (_create_category_page template_vars).
Proof. unfold _create_category_page, invalid_fstring. auto with pure. Qed.

Lemma stateless_create_navigation_component :
  stateless (_create_navigation_component template_vars).
Proof. unfold _create_navigation_component, invalid_fstring. auto with pure. Qed.

Lemma stateless_create_footer_component :
  stateless (_create_footer_component template_vars).
Proof. unfold _create_footer_component, invalid_fstring. auto with pure. Qed.

Lemma stateless_create_global_css : stateless (_create_global_css template_vars).
Proof. unfold _create_global_css. auto 20 with pure. Qed.

Lemma stateless_create_next_config : stateless (_create_next_config template_vars).
Proof. unfold _create_next_config. auto 10 with pure. Qed.

Lemma stateless_create_env_example : stateless (_create_env_example template_vars).
Proof. unfold _create_env_example. auto 10 with pure. Qed.

Lemma stateless_create_readme : stateless (_create_readme template_vars).
Proof. unfold _create_readme. cbv zeta. auto 40 with pure. Qed.

Lemma stateless_create_deployment_guide :
  stateless (_create_deployment_guide template_vars).
Proof. unfold _create_deployment_guide. cbv zeta. auto 10 with pure. Qed.

Lemma stateless_build_template_vars (w : world) (brand_name : pystr)
    (niche_config product_data : json) (api_url : pystr) :
  stateless (build_template_vars w brand_name niche_config product_data api_url).
Proof. unfold build_template_vars. auto 20 with pure. Qed.

End StatelessTemplates.

(** ** More on the status checks *)

Section StatusRecords.

Variable w : world.

Ltac split_case :=
  match goal with
  | |- context [http_get w ?n ?u] =>
      let E := fresh "Ecall" in
      destruct (http_get w n u) as [? | ? ?] eqn:E
  | |- context [(?c =? 200)%Z] =>
      let E := fresh "Estatus" in destruct (c =? 200)%Z eqn:E
  | |- context [match ?b with Some _ => _ | None => _ end] =>
      is_var b; destruct b
  | |- context [match ?v with
                | JNull => _ | JBool _ => _ | JNum _ => _
                | JStr _ => _ | JArr _ => _ | JObj _ => _ end] =>
      is_var v; destruct v
  end; cbv beta iota; cbn [status_code body count_call calls dirs files negb].

(** The two shapes of the record of [get_server_status]. *)
Lemma get_server_status_cases (gcs_url : pystr) (st st' : state) (d : pydict) :
  get_server_status w gcs_url st = (Ok d, st') ->
  files st' = files st /\ dirs st' = dirs st
  /\ calls st < calls st' <= 3 + calls st
  /\ ((exists m,
         d = [ (str "healthy", JBool false); (str "error", JStr m);
               (str "url", JStr gcs_url); (str "last_checked", JStr (str "now")) ])
      \/
      (exists hc hb pc pb products_count sc sb available_sites,
         http_get w (calls st) (gcs_url ++ str "/health") = Response hc hb
         /\ http_get w (S (calls st)) (gcs_url ++ str "/products") = Response pc pb
         /\ http_get w (S (S (calls st))) (gcs_url ++ str "/sites") = Response sc sb
         /\ calls st' = 3 + calls st
         /\ (if (pc =? 200)%Z
             then exists obj, pb = Some (JObj obj)
                              /\ products_count = get_or obj (str "count") (JNum 0)
             else products_count = JNum 0)
         /\ (if (sc =? 200)%Z
             then exists obj, sb = Some (JObj obj)
                              /\ available_sites = get_or obj (str "sites") (JArr [])
             else available_sites = JArr [])
         /\ d = [ (str "healthy", JBool (hc =? 200)%Z);
                  (str "products_count", products_count);
                  (str "available_sites", available_sites);
                  (str "url", JStr gcs_url);
                  (str "last_checked", JStr (str "now")) ])).
Proof.
  cbv [get_server_status try_except bind ret raise throw requests_get
       response_json py_get].
  cbn [status_code body count_call calls].
  repeat split_case.
  all: try congruence.
  all: repeat match goal with
              | H : Response _ _ = Response _ _ |- _ => injection H as ? ?; subst
              end.
  all: intros H; injection H as <- <-; cbn [files dirs count_call calls].
  all: split; [reflexivity|]; split; [reflexivity|]; split; [lia|].
  all: try (left; eexists; reflexivity).
  all: right; do 8 eexists.
  all: repeat match goal with
              | |- _ /\ _ => split
              | |- Response _ _ = Response _ _ => reflexivity
              | |- S (S (S _)) = _ => reflexivity
              end.
  all: repeat match goal with
              | E : (?c =? 200)%Z = _ |- context [(?c =? 200)%Z] => rewrite E
              end.
  all: try reflexivity.
  all: try (eexists; split; reflexivity).
Qed.

(** X10. A record of [get_server_status] with [healthy] true is complete:
    the health call answered 200, all three calls were issued, and the
    record has [products_count] and [available_sites] and no [error]. *)
Theorem healthy_record_is_complete
    (gcs_url : pystr) (st st' : state) (d : pydict) :
  get_server_status w gcs_url st = (Ok d, st') ->
  dict_lookup (str "healthy") d = Some (JBool true) ->
  (exists b, http_get w (calls st) (gcs_url ++ str "/health") = Response 200 b)
  /\ calls st' = 3 + calls st
  /\ (exists products_count, dict_lookup (str "products_count") d = Some products_count)
  /\ (exists sites, dict_lookup (str "available_sites") d = Some sites)
  /\ dict_lookup (str "error") d = None.
Proof.
  intros Hrun Hhealthy.
  destruct (get_server_status_cases _ _ Hrun)
    as (_ & _ & _ & [[m ->] | (hc & hb & pc & pb & cnt & sc & sb & sites
                           & H1 & _ & _ & Hc & _ & _ & ->)]).
  - discriminate Hhealthy.
  - cbn in Hhealthy. injection Hhealthy as Hhc. apply Z.eqb_eq in Hhc. subst hc.
    split; [exists hb; exact H1|]. split; [exact Hc|].
    split; [exists cnt; reflexivity|]. split; [exists sites; reflexivity|].
    reflexivity.
Qed.

Lemma py_lt_int_state (v : json) (n : Z) (st st' : state) (r : exc bool) :
  py_lt_int v n st = (r, st') -> st' = st.
Proof.
  destruct v; cbv [py_lt_int ret throw raise]; intros H; injection H as _ <-;
    reflexivity.
Qed.

(** X11. [validate_existing_server] returns [True] only when the three
    calls answered 200, the products and sites bodies being JSON objects,
    the count is not below 1 and the text of the sites holds [amazon] or
    [cabelas]; it has then issued exactly three calls and created no
    directory and no file. *)
Theorem validation_is_sound (gcs_url : pystr) (st st' : state) :
  validate_existing_server w gcs_url st = (Ok true, st') ->
  (exists hb pobj sobj,
     http_get w (calls st) (gcs_url ++ str "/health") = Response 200 hb
     /\ http_get w (S (calls st)) (gcs_url ++ str "/products")
        = Response 200 (Some (JObj pobj))
     /\ http_get w (S (S (calls st))) (gcs_url ++ str "/sites")
        = Response 200 (Some (JObj sobj))
     /\ py_lt_int (get_or pobj (str "count") (JNum 0)) 1 st' = (Ok false, st')
     /\ existsb (fun source =>
                   contains source
                     (lower (py_str (get_or sobj (str "sites") (JArr [])))))
                expected_sources = true)
  /\ calls st' = 3 + calls st
  /\ files st' = files st
  /\ dirs st' = dirs st.
Proof.
  intros H. unfold validate_existing_server in H.
  destruct (get_server_status_total w gcs_url st) as (d & st1 & Hrun & _).
  erewrite bind_run in H by exact Hrun.
  destruct (get_server_status_cases _ _ Hrun)
    as (Hf & Hd & _ & [[m ->] | (hc & hb & pc & pb & cnt & sc & sb & sites
                             & H1 & H2 & H3 & Hc & Hp & Hs & ->)]).
  - cbn in H. discriminate H.
  - erewrite bind_run in H by reflexivity. cbn [truthy] in H.
    destruct (hc =? 200)%Z eqn:Ehc; cbn [negb] in H; [|discriminate H].
    apply Z.eqb_eq in Ehc. subst hc.
    erewrite bind_run in H by reflexivity.
    destruct (py_lt_int cnt 1 st1) as [[too_few | e] s] eqn:Elt;
      [|unfold bind in H; rewrite Elt in H; discriminate H].
    pose proof (py_lt_int_state _ _ _ Elt) as ->.
    erewrite bind_run in H by exact Elt.
    destruct too_few; [discriminate H|].
    erewrite bind_run in H by reflexivity.
    destruct (existsb (fun source => contains source (lower (py_str sites)))
                expected_sources) eqn:Esites;
      cbn [negb] in H; [|discriminate H].
    injection H as <-.
    destruct (pc =? 200)%Z eqn:Epc.
    2:{ subst cnt. discriminate Elt. }
    destruct (sc =? 200)%Z eqn:Esc.
    2:{ subst sites. discriminate Esites. }
    apply Z.eqb_eq in Epc, Esc. subst pc sc.
    destruct Hp as (pobj & -> & ->). destruct Hs as (sobj & -> & ->).
    split; [|split; [exact Hc | split; assumption]].
    exists hb, pobj, sobj. repeat split; assumption.
Qed.

(** X12. An unhealthy server is rejected without an exception: when the
    health call fails or answers a status other than 200,
    [validate_existing_server] returns [False]. *)
Theorem unhealthy_server_is_rejected (gcs_url : pystr) (st : state) :
  (forall b, http_get w (calls st) (gcs_url ++ str "/health") <> Response 200 b) ->
  exists st', validate_existing_server w gcs_url st = (Ok false, st').
Proof.
  intros Hbad. unfold validate_existing_server.
  destruct (get_server_status_total w gcs_url st) as (d & st1 & Hrun & _).
  erewrite bind_run by exact Hrun.
  destruct (get_server_status_cases _ _ Hrun)
    as (_ & _ & _ & [[m ->] | (hc & hb & pc & pb & cnt & sc & sb & sites
                           & H1 & _ & _ & _ & _ & _ & ->)]).
  - eexists. reflexivity.
  - erewrite bind_run by reflexivity. cbn [truthy].
    destruct (hc =? 200)%Z eqn:Ehc; cbn [negb].
    + apply Z.eqb_eq in Ehc. subst hc. exfalso. exact (Hbad hb H1).
    + eexists. reflexivity.
Qed.

(** X13. The only exception that [validate_existing_server] lets through
    is the [TypeError] of comparing a count that is not a number. *)
Theorem validation_raises_only_type_error
    (gcs_url : pystr) (st st' : state) (e : exn) :
  validate_existing_server w gcs_url st = (Raise e, st') ->
  kind e = TypeError
  /\ exists pobj,
       http_get w (S (calls st)) (gcs_url ++ str "/products")
       = Response 200 (Some (JObj pobj))
       /\ (forall n, get_or pobj (str "count") (JNum 0) <> JNum n)
       /\ (forall b, get_or pobj (str "count") (JNum 0) <> JBool b).
Proof.
  intros H. unfold validate_existing_server in H.
  destruct (get_server_status_total w gcs_url st) as (d & st1 & Hrun & _).
  erewrite bind_run in H by exact Hrun.
  destruct (get_server_status_cases _ _ Hrun)
    as (Hf & Hd & _ & [[m ->] | (hc & hb & pc & pb & cnt & sc & sb & sites
                             & H1 & H2 & H3 & Hc & Hp & Hs & ->)]).
  - cbn in H. discriminate H.
  - erewrite bind_run in H by reflexivity. cbn [truthy] in H.
    destruct (hc =? 200)%Z eqn:Ehc; cbn [negb] in H; [|discriminate H].
    erewrite bind_run in H by reflexivity.
    destruct (pc =? 200)%Z eqn:Epc.
    2:{ subst cnt. cbn in H. discriminate H. }
    apply Z.eqb_eq in Epc. subst pc. destruct Hp as (pobj & -> & ->).
    destruct (get_or pobj (str "count") (JNum 0)) as [ | b | n | | | ] eqn:Ecnt.
    all: cbn in H.
    all: repeat match type of H with
                | context [if ?c then _ else _] => destruct c
                end.
    all: try discriminate H.
    all: cbv [bind ret] in H;
      repeat match type of H with
             | context [if ?c then _ else _] => destruct c
             end.
    all: try discriminate H.
    all: injection H as <- _; split; [reflexivity|]; exists pobj;
      split; [exact H2|]; rewrite Ecnt; split; intros; discriminate.
Qed.



End StatusRecords.

Section ValidationEffects.

Variable w : world.

(** Whatever its outcome, the validation of the server creates nothing
    and issues between one and three calls, all three when it passes. *)
Lemma validate_existing_server_effects
    (gcs_url : pystr) (st st' : state) (r : exc bool) :
  validate_existing_server w gcs_url st = (r, st') ->
  files st' = files st /\ dirs st' = dirs st
  /\ calls st < calls st' <= 3 + calls st
  /\ (r = Ok true -> calls st' = 3 + calls st).
Proof.
  intros H. unfold validate_existing_server in H.
  destruct (get_server_status_total w gcs_url st) as (d & st1 & Hrun & _).
  erewrite bind_run in H by exact Hrun.
  destruct (get_server_status_cases _ _ _ Hrun) as (Hf & Hd & Hcalls & Hcases).
  assert (Hst : st' = st1).
  { apply stateless_run in H; [exact H|].
    apply stateless_bind; [auto with pure|]. intros healthy.
    destruct (negb (truthy healthy)); [auto with pure|].
    apply stateless_bind; [auto with pure|]. intros products_count.
    apply stateless_bind; [auto with pure|]. intros [|]; [auto with pure|].
    apply stateless_bind; [auto with pure|]. intros available_sites.
    destruct (negb _); auto with pure. }
  subst st'. repeat (split; [assumption|]). intros ->.
  destruct Hcases as [[m ->] | (hc & hb & pc & pb & cnt & sc & sb & sites
                                & _ & _ & _ & Hc & _ & _ & _)].
  - cbn in H. discriminate H.
  - exact Hc.
Qed.

End ValidationEffects.

(** ** The probes of the orchestrator *)

Ltac probe_case :=
  match goal with
  | |- context [http_get ?w ?n ?u] =>
      let E := fresh "Ecall" in
      destruct (http_get w n u) as [? | ? ?] eqn:E
  | |- context [(?c =? 200)%Z] =>
      let E := fresh "Estatus" in destruct (c =? 200)%Z eqn:E
  | |- context [if ?served ?n ?u then _ else _] =>
      let E := fresh "Eserved" in destruct (served n u) eqn:E
  | |- context [match ?b with Some _ => _ | None => _ end] =>
      is_var b; destruct b
  | |- context [match ?v with
                | JNull => _ | JBool _ => _ | JNum _ => _
                | JStr _ => _ | JArr _ => _ | JObj _ => _ end] =>
      is_var v; destruct v
  end; cbv beta iota;
  cbn [status_code body status payload json_content_type
       count_call calls dirs files negb].

Section Probes.

Variable w : world.
Variable served_as_json : nat -> pystr -> bool.

(** X14. [_validate_scraper_data] never raises and issues exactly one
    call; it returns the [count] entry of the body (0 without one) when the
    call answered 200 with a JSON object served with a JSON content type,
    and 0 in every other case. *)
Theorem scraper_count_never_raises (api_url : pystr) (st : state) :
  exists v,
    _validate_scraper_data w served_as_json api_url st = (Ok v, count_call st)
    /\ (forall obj,
          http_get w (calls st) (api_url ++ str "/products")
          = Response 200 (Some (JObj obj)) ->
          served_as_json (calls st) (api_url ++ str "/products") = true ->
          v = get_or obj (str "count") (JNum 0))
    /\ (served_as_json (calls st) (api_url ++ str "/products") = false ->
        v = JNum 0)
    /\ ((forall obj,
           http_get w (calls st) (api_url ++ str "/products")
           <> Response 200 (Some (JObj obj))) ->
        v = JNum 0).
Proof.
  cbv [_validate_scraper_data try_except bind ret raise throw session_get
       client_json py_get].
  cbn [status payload json_content_type count_call calls].
  repeat probe_case.
  all: eexists; split; [reflexivity|]; split; [|split].
  all: try (intros obj H; discriminate H).
  all: try (intros obj H; injection H as -> _; discriminate Estatus).
  all: try (intros _; reflexivity).
  all: try (intros H; discriminate H).
  all: try (intros obj H Hs; discriminate Hs).
  all: try (intros obj H _; injection H as _ ->; reflexivity).
  all: intros H; apply Z.eqb_eq in Estatus; subst; exfalso; exact (H _ eq_refl).
Qed.

(** X15. [_validate_complete_system] never raises: it always issues its
    three calls, whatever the earlier ones gave, writes nothing, and returns
    the three flags.  The first two flags say whether the health call and
    the site call answered 200; the third is true only if the products call
    through the site answered 200 with a JSON object, served with a JSON
    content type, whose count is above 0. *)
Theorem complete_system_probes_all_run (vercel_url api_url : pystr) (st : state) :
  exists r st',
    _validate_complete_system w served_as_json vercel_url api_url st = (Ok r, st')
    /\ calls st' = 3 + calls st /\ files st' = files st /\ dirs st' = dirs st
    /\ map fst r = [ str "scraper_api_healthy"; str "website_loads";
                     str "api_integration_working" ]
    /\ dict_lookup (str "scraper_api_healthy") r
       = Some (JBool (answered_200 (http_get w (calls st) (api_url ++ str "/health"))))
    /\ dict_lookup (str "website_loads") r
       = Some (JBool (answered_200 (http_get w (S (calls st)) vercel_url)))
    /\ exists working,
         dict_lookup (str "api_integration_working") r = Some (JBool working)
         /\ (working = true ->
             (exists obj,
                http_get w (S (S (calls st))) (vercel_url ++ str "/api/products")
                = Response 200 (Some (JObj obj))
                /\ py_gt_int (get_or obj (str "count") (JNum 0)) 0 st'
                   = (Ok true, st'))
             /\ served_as_json (S (S (calls st))) (vercel_url ++ str "/api/products")
                = true).
Proof.
  cbv [_validate_complete_system probe try_except bind ret raise throw
       session_get client_json py_get].
  cbn [status payload json_content_type count_call calls].
  repeat probe_case.
  all: try match goal with
           | |- context [py_gt_int ?v 0] =>
               let E := fresh "Ecount" in
               destruct v eqn:E; cbv [py_gt_int ret throw raise]; cbv beta iota
           end.
  all: do 2 eexists; (split; [reflexivity|]).
  all: cbn [count_call calls files dirs answered_200 map fst dict_set
            dict_lookup eqb_str Ascii.eqb Bool.eqb andb of_string
            list_ascii_of_string].
  all: repeat match goal with
              | E : (?c =? 200)%Z = _ |- context [(?c =? 200)%Z] => rewrite E
              end.
  all: do 6 (split; [reflexivity|]).
  all: eexists; (split; [reflexivity|]); intros Hw; try discriminate Hw.
  all: repeat match goal with
              | E : (_ =? 200)%Z = true |- _ => apply Z.eqb_eq in E; subst
              end.
  all: split; [|reflexivity].
  all: eexists; (split; [reflexivity|]).
  all: cbv [py_gt_int ret]; cbn in Ecount |- *; rewrite Ecount, Hw; reflexivity.
Qed.

End Probes.

(** ** The status check of quick_deploy.py *)

Section QuickCheck.

Variable w : world.

(** X24. [check_server_status] reports a success only after two calls that
    both answered 200, the products body being a JSON object whose [count]
    is not equal to 0; the record then carries that count and the first
    three entries of [products]. *)
Theorem quick_check_success_is_sound
    (server_url : pystr) (st st' : state) (d : pydict) :
  check_server_status w server_url st = (Ok d, st') ->
  dict_lookup (str "success") d = Some (JBool true) ->
  exists hb obj sample,
    http_get w (calls st) (server_url ++ str "/health") = Response 200 hb
    /\ http_get w (S (calls st)) (server_url ++ str "/products")
       = Response 200 (Some (JObj obj))
    /\ py_eq_int (get_or obj (str "count") (JNum 0)) 0 = false
    /\ py_slice_to 3 (get_or obj (str "products") (JArr [])) st' = (Ok sample, st')
    /\ d = [ (str "success", JBool true);
             (str "products_count", get_or obj (str "count") (JNum 0));
             (str "sample_products", sample) ]
    /\ calls st' = 2 + calls st.
Proof.
  cbv [check_server_status try_except bind ret raise throw requests_get
       response_json py_get].
  cbn [status_code body count_call calls].
  repeat probe_case.
  all: try (intros H; injection H as <- <-; intros Hs; discriminate Hs).
  all: destruct (py_eq_int _ 0) eqn:Ecount.
  all: try (intros H; injection H as <- <-; intros Hs; discriminate Hs).
  all: destruct (py_slice_to 3 _ _) as [[? | ?] ?] eqn:Eslice.
  all: try (intros H; injection H as <- <-; intros Hs; discriminate Hs).
  all: intros H; injection H as <- <-; intros _.
  all: apply Z.eqb_eq in Estatus, Estatus0; subst.
  all: match type of Eslice with
       | py_slice_to _ _ ?a = (_, ?s) =>
           assert (s = a)
             by (eapply stateless_run; [apply stateless_py_slice_to | exact Eslice]);
           subst s
       end.
  all: try congruence.
  all: repeat match goal with
              | E : Response _ _ = Response _ _ |- _ => injection E as ? ?; subst
              end.
  all: do 3 eexists; repeat (split; [first [reflexivity | eassumption]|]).
  all: reflexivity.
Qed.

End QuickCheck.

(** ** The version-control publish of quick_deploy.py *)

Section Publish.

Variable sh : shell.

(** What [run_checked] ran is the start of what it was given; every
    command but the last one run succeeded, and the last one decides the
    result. *)
Lemma run_checked_inv (todo : list git_command) :
  forall (done : list git_command) (ok : bool) (cmds : list git_command),
    run_checked sh done todo = (ok, cmds) ->
    exists ran rest,
      cmds = done ++ ran /\ todo = ran ++ rest
      /\ (forall p1 c1 p2,
            ran = p1 ++ c1 :: p2 -> p2 <> [] ->
            command_ok sh (done ++ p1) c1 = true)
      /\ (if ok
          then rest = []
               /\ (forall p1 c1, ran = p1 ++ [c1] ->
                                 command_ok sh (done ++ p1) c1 = true)
          else exists p1 c1, ran = p1 ++ [c1]
                             /\ command_ok sh (done ++ p1) c1 = false).
Proof.
  induction todo as [|c todo IH]; intros done ok cmds H; cbn [run_checked] in H.
  - injection H as <- <-. exists [], []. rewrite app_nil_r.
    split; [reflexivity|]. split; [reflexivity|]. split.
    + intros [|? ?] ? ? E; discriminate E.
    + split; [reflexivity|]. intros [|? ?] ? E; discriminate E.
  - destruct (command_ok sh done c) eqn:Ec.
    + destruct (IH _ _ _ H) as (ran & rest & -> & -> & Hmid & Hlast).
      exists (c :: ran), rest. rewrite <- app_assoc.
      split; [reflexivity|]. split; [reflexivity|]. split.
      * intros [|x p1] c1 p2 E Hp2; injection E as <- E.
        -- rewrite app_nil_r. exact Ec.
        -- subst ran. specialize (Hmid p1 c1 p2 eq_refl Hp2).
           rewrite <- app_assoc in Hmid. exact Hmid.
      * destruct ok.
        -- destruct Hlast as [-> Hlast]. split; [reflexivity|].
           intros [|x p1] c1 E; injection E as <- E.
           ++ rewrite app_nil_r. exact Ec.
           ++ specialize (Hlast p1 c1 E). rewrite <- app_assoc in Hlast.
              exact Hlast.
        -- destruct Hlast as (p1 & c1 & -> & Hc1).
           exists (c :: p1), c1. split; [reflexivity|].
           rewrite <- app_assoc in Hc1. exact Hc1.
    + injection H as <- <-. exists [c], todo.
      split; [reflexivity|]. split; [reflexivity|]. split.
      * intros [|x [|y p1]] c1 p2 E Hp2; injection E as <- E;
          [congruence | discriminate E | discriminate E].
      * exists [], c. rewrite app_nil_r. split; [reflexivity | exact Ec].
Qed.

(** X16. A publish that returns [True] changed into the directory and ran
    every planned command, each with exit status 0: [git init] and
    [git remote add origin] only where there was no [.git] entry, then
    [git add .], [git commit] and the forced push to [main]. *)
Theorem publish_success_ran_every_command
    (site_dir repo_url : pystr) (cmds : list git_command) :
  setup_git_and_push sh site_dir repo_url = (true, cmds) ->
  chdir_ok sh site_dir = true
  /\ cmds = (if git_dir_exists sh site_dir
             then []
             else [GitInit; GitRemoteAddOrigin repo_url])
            ++ [GitAddAll; GitCommit; GitPushForceMain]
  /\ (forall pre c post, cmds = pre ++ c :: post -> command_ok sh pre c = true).
Proof.
  unfold setup_git_and_push. intros H.
  destruct (chdir_ok sh site_dir); cbn [negb] in H; [|discriminate H].
  split; [reflexivity|].
  destruct (run_checked_inv _ _ H) as (ran & rest & -> & Hplan & Hmid & -> & Hlast).
  rewrite app_nil_r in Hplan. cbn [app] in *. subst ran. split.
  - destruct (git_dir_exists sh site_dir); reflexivity.
  - intros pre c [|x post] E.
    + apply Hlast. exact E.
    + apply (Hmid pre c (x :: post)); [exact E | discriminate].
Qed.

(** X17. A publish that returns [False] either could not change into the
    directory and ran nothing, or stopped at the first command that failed:
    the commands before it succeeded, and none of the planned commands
    after it was run. *)
Theorem publish_failure_stops_at_failed_command
    (site_dir repo_url : pystr) (cmds : list git_command) :
  setup_git_and_push sh site_dir repo_url = (false, cmds) ->
  (chdir_ok sh site_dir = false /\ cmds = [])
  \/ (exists pre c post,
        cmds = pre ++ [c]
        /\ (if git_dir_exists sh site_dir
            then []
            else [GitInit; GitRemoteAddOrigin repo_url])
           ++ [GitAddAll; GitCommit; GitPushForceMain]
           = pre ++ c :: post
        /\ command_ok sh pre c = false
        /\ (forall p1 c1 p2, pre = p1 ++ c1 :: p2 -> command_ok sh p1 c1 = true)).
Proof.
  unfold setup_git_and_push. intros H.
  destruct (chdir_ok sh site_dir); cbn [negb] in H.
  2:{ left. injection H as <-. split; reflexivity. }
  right.
  destruct (run_checked_inv _ _ H)
    as (ran & rest & -> & Hplan & Hmid & (p1 & c1 & -> & Hc1)).
  cbn [app] in *. exists p1, c1, rest. split; [reflexivity|]. split.
  - rewrite <- app_assoc in Hplan. cbn [app] in Hplan.
    destruct (git_dir_exists sh site_dir); exact Hplan.
  - split; [exact Hc1|]. intros q1 d1 q2 E. subst p1.
    apply (Hmid q1 d1 (q2 ++ [c1])).
    + rewrite <- app_assoc. reflexivity.
    + destruct q2; discriminate.
Qed.

(** X18. Where the directory already holds a [.git] entry the repository
    URL plays no part: the remote is never set, and the outcome is the same
    for every URL. *)
Theorem publish_into_existing_repository_ignores_url
    (site_dir repo_url other_url : pystr) :
  git_dir_exists sh site_dir = true ->
  setup_git_and_push sh site_dir repo_url = setup_git_and_push sh site_dir other_url
  /\ (forall url, ~ In (GitRemoteAddOrigin url)
                      (snd (setup_git_and_push sh site_dir repo_url))).
Proof.
  intros Hgit. unfold setup_git_and_push. rewrite Hgit. cbn [negb app].
  split; [reflexivity|]. intros url.
  destruct (chdir_ok sh site_dir); cbn [negb snd]; [|intros []].
  destruct (run_checked sh [] [GitAddAll; GitCommit; GitPushForceMain])
    as [ok cmds] eqn:H.
  destruct (run_checked_inv _ _ H) as (ran & rest & -> & Hplan & _).
  cbn [app snd]. intros Hin.
  assert (Hin' : In (GitRemoteAddOrigin url) [GitAddAll; GitCommit; GitPushForceMain]).
  { rewrite Hplan. apply in_or_app. left. exact Hin. }
  cbn in Hin'. intuition discriminate.
Qed.

End Publish.

(** ** What the generator writes *)

Section Writes.

Variable w : world.

Lemma writes_stateless {A} (c : M A) : stateless c -> writes c 0 [] (fun _ => True).
Proof.
  intros Hc st r st' H. apply stateless_run in H; [|exact Hc]. subst st'.
  split; [lia|]. exists [], []. rewrite !app_nil_r.
  split; [reflexivity|]. split; [reflexivity|]. destruct r; auto.
Qed.

Lemma writes_ret {A} (a : A) (post : A -> Prop) : post a -> writes (ret a) 0 [] post.
Proof.
  intros Ha st r st' H. injection H as <- <-.
  split; [lia|]. exists [], []. rewrite !app_nil_r. auto.
Qed.

Lemma writes_bind {A B} (c : M A) (k : A -> M B) (n1 n2 : nat)
    (p1 p2 : list pystr) (P : A -> Prop) (Q : B -> Prop) :
  writes c n1 p1 P -> (forall a, P a -> writes (k a) n2 p2 Q) ->
  writes (bind c k) (n1 + n2) (p1 ++ p2) Q.
Proof.
  intros Hc Hk st r st' H. unfold bind in H.
  destruct (c st) as [[a | e] st1] eqn:E.
  - destruct (Hc _ _ _ E) as (Hc1 & done1 & rest1 & -> & Hf1 & -> & Pa).
    destruct (Hk a Pa _ _ _ H) as (Hc2 & done2 & rest2 & -> & Hf2 & Hr).
    split; [lia|]. exists (done1 ++ done2), rest2.
    rewrite app_nil_r, Hf2, Hf1, <- !app_assoc. auto.
  - injection H as <- <-.
    destruct (Hc _ _ _ E) as (Hc1 & done1 & rest1 & -> & Hf1 & _).
    split; [lia|]. exists done1, (rest1 ++ p2).
    rewrite <- app_assoc. auto.
Qed.

Lemma writes_weaken {A} (c : M A) (n : nat) (paths : list pystr)
    (P Q : A -> Prop) :
  writes c n paths P -> (forall a, P a -> Q a) -> writes c n paths Q.
Proof.
  intros Hc HPQ st r st' H.
  destruct (Hc _ _ _ H) as (Hcalls & done & rest & Hp & Hf & Hr).
  split; [exact Hcalls|]. exists done, rest.
  split; [exact Hp|]. split; [exact Hf|].
  destruct r; [|exact I]. destruct Hr as [-> Pa]. auto.
Qed.

Lemma writes_save_file (content : file_body) (file_path : pystr) :
  writes (save_file w content file_path) 0 [file_path] (fun _ => True).
Proof.
  intros st r st' H. unfold save_file, bind, mkdir, write_file in H.
  destruct (mkdir_ok w (path_parent file_path)).
  - cbn [files calls dirs] in H. destruct (write_ok w file_path).
    + injection H as <- <-. cbn [files calls]. split; [lia|].
      exists [file_path], []. rewrite map_app. auto.
    + injection H as <- <-. cbn [files calls]. split; [lia|].
      exists [], [file_path]. rewrite !app_nil_r. auto.
  - injection H as <- <-. split; [lia|].
    exists [], [file_path]. rewrite !app_nil_r. auto.
Qed.

Lemma writes_after_pure {A B} (c : M A) (k : A -> M B) (n : nat)
    (paths : list pystr) (Q : B -> Prop) :
  stateless c -> (forall a, writes (k a) n paths Q) -> writes (bind c k) n paths Q.
Proof.
  intros Hc Hk. apply (@writes_bind _ _ c k 0 n [] paths (fun _ => True) Q).
  - apply writes_stateless. exact Hc.
  - intros a _. apply Hk.
Qed.

Lemma writes_after_save {B} (content : file_body) (file_path : pystr)
    (k : unit -> M B) (n : nat) (paths : list pystr) (Q : B -> Prop) :
  (forall u, writes (k u) n paths Q) ->
  writes (bind (save_file w content file_path) k) n (file_path :: paths) Q.
Proof.
  intros Hk.
  apply (@writes_bind _ _ (save_file w content file_path) k
           0 n [file_path] paths (fun _ => True) Q).
  - apply writes_save_file.
  - intros u _. apply Hk.
Qed.

#[local] Hint Resolve stateless_generate_package_json stateless_create_index_page
  stateless_create_api_route stateless_create_category_page
  stateless_create_navigation_component stateless_create_footer_component
  stateless_create_global_css stateless_create_next_config
  stateless_create_env_example stateless_create_readme
  stateless_create_deployment_guide stateless_build_template_vars : pure.

(** One phase of the generator: templates are rendered without effect,
    each rendered text is saved, and the phase returns the paths. *)
Ltac phase :=
  repeat first
    [ apply writes_after_save; intros _
    | apply writes_after_pure; [solve [auto with pure] | intros ?]
    | apply writes_ret; reflexivity ].

Variable project_path : pystr.

Lemma generate_pages_writes (template_vars : pydict) :
  writes (_generate_pages w project_path template_vars)
    0 (firstn 3 (skipn 1 (generated_paths project_path)))
    (fun fs => fs = firstn 3 (skipn 1 (generated_paths project_path))).
Proof. unfold _generate_pages. cbv zeta. cbn [firstn skipn generated_paths]. phase. Qed.

Lemma generate_components_writes (template_vars : pydict) :
  writes (_generate_components w project_path template_vars)
    0 (firstn 5 (skipn 4 (generated_paths project_path)))
    (fun fs => fs = firstn 5 (skipn 4 (generated_paths project_path))).
Proof.
  unfold _generate_components, _create_hero_component,
    _create_product_grid_component, _create_product_card_component.
  cbv zeta. cbn [firstn skipn generated_paths]. phase.
Qed.

Lemma generate_styles_writes (template_vars : pydict) :
  writes (_generate_styles w project_path template_vars)
    0 (firstn 3 (skipn 9 (generated_paths project_path)))
    (fun fs => fs = firstn 3 (skipn 9 (generated_paths project_path))).
Proof.
  unfold _generate_styles, _create_tailwind_config, _create_postcss_config.
  cbv zeta. cbn [firstn skipn generated_paths]. phase.
Qed.

Lemma generate_config_files_writes (template_vars : pydict) :
  writes (_generate_config_files w project_path template_vars)
    0 (firstn 3 (skipn 12 (generated_paths project_path)))
    (fun fs => fs = firstn 3 (skipn 12 (generated_paths project_path))).
Proof.
  unfold _generate_config_files, _create_vercel_config.
  cbv zeta. cbn [firstn skipn generated_paths]. phase.
Qed.

Lemma generate_documentation_writes (template_vars : pydict) :
  writes (_generate_documentation w project_path template_vars)
    0 (skipn 15 (generated_paths project_path))
    (fun fs => fs = skipn 15 (generated_paths project_path)).
Proof.
  unfold _generate_documentation.
  cbv zeta. cbn [firstn skipn generated_paths]. phase.
Qed.

Lemma writes_invalid_fstring {A B} (k : A -> M B) (n : nat)
    (paths : list pystr) (post : B -> Prop) :
  writes (bind invalid_fstring k) n paths post.
Proof.
  intros st r st' H. cbv [bind invalid_fstring throw raise] in H.
  injection H as <- <-. split; [lia|].
  exists [], paths. rewrite app_nil_r. auto.
Qed.

(** The pages: the home page and the API route are written, and the
    category page stops the phase. *)
Lemma generate_pages_stops (template_vars : pydict) :
  writes (_generate_pages w project_path template_vars) 0
    (firstn 2 (skipn 1 (generated_paths project_path)))
    (fun _ => False).
Proof.
  unfold _generate_pages, _create_category_page. cbv zeta.
  cbn [firstn skipn generated_paths].
  apply writes_after_pure; [auto with pure | intros index_content].
  apply writes_after_save. intros _.
  apply writes_after_pure; [auto with pure | intros api_content].
  apply writes_after_save. intros _.
  apply writes_invalid_fstring.
Qed.

Lemma generate_website_files_stops
    (brand_name : pystr) (niche_config product_data : json) (api_url : pystr) :
  writes (_generate_website_files w project_path brand_name niche_config
            product_data api_url)
    0 (firstn 3 (generated_paths project_path))
    (fun _ => False).
Proof.
  unfold _generate_website_files.
  apply writes_after_pure; [auto with pure | intros tv].
  apply writes_after_pure; [auto with pure | intros package_json].
  cbv zeta.
  change (firstn 3 (generated_paths project_path))
    with (path_join project_path (str "package.json")
          :: firstn 2 (skipn 1 (generated_paths project_path)) ++ []).
  apply writes_after_save. intros _.
  eapply (@writes_bind _ _ _ _ 0 0); [apply generate_pages_stops | intros ? []].
Qed.

Lemma generate_website_files_writes
    (brand_name : pystr) (niche_config product_data : json) (api_url : pystr) :
  writes (_generate_website_files w project_path brand_name niche_config
            product_data api_url)
    0 (generated_paths project_path)
    (fun results => result_files results = generated_paths project_path
                    /\ file_count results = 17).
Proof.
  unfold _generate_website_files.
  apply writes_after_pure; [auto with pure | intros tv].
  apply writes_after_pure; [auto with pure | intros package_json].
  cbv zeta.
  change (writes ?c 0 (generated_paths project_path) ?Q)
    with (writes c 0
            (path_join project_path (str "package.json")
             :: firstn 3 (skipn 1 (generated_paths project_path))
             ++ firstn 5 (skipn 4 (generated_paths project_path))
             ++ firstn 3 (skipn 9 (generated_paths project_path))
             ++ firstn 3 (skipn 12 (generated_paths project_path))
             ++ skipn 15 (generated_paths project_path) ++ []) Q).
  apply writes_after_save. intros _.
  eapply (@writes_bind _ _ _ _ 0 0); [apply generate_pages_writes | intros ? ->].
  eapply (@writes_bind _ _ _ _ 0 0); [apply generate_components_writes | intros ? ->].
  eapply (@writes_bind _ _ _ _ 0 0); [apply generate_styles_writes | intros ? ->].
  eapply (@writes_bind _ _ _ _ 0 0); [apply generate_config_files_writes | intros ? ->].
  eapply (@writes_bind _ _ _ _ 0 0); [apply generate_documentation_writes | intros ? ->].
  apply writes_ret. split; reflexivity.
Qed.

End Writes.

(** ** The generator as a whole *)

Section GeneratorEffects.

Variable w : world.

(** X19. [_fetch_product_data] never raises and issues exactly one call;
    its result is always a dictionary: the parsed body when the call
    answered 200 with a JSON object, the empty sample in every other
    case. *)
Theorem fetch_product_data_is_a_dict (api_url : pystr) (st : state) :
  exists d,
    _fetch_product_data w api_url st = (Ok (JObj d), count_call st)
    /\ (forall obj,
          http_get w (calls st) (api_url ++ str "/products")
          = Response 200 (Some (JObj obj)) ->
          d = obj)
    /\ ((forall obj,
           http_get w (calls st) (api_url ++ str "/products")
           <> Response 200 (Some (JObj obj))) ->
        d = empty_sample).
Proof.
  cbv [_fetch_product_data try_except bind ret raise throw requests_get
       response_json py_get].
  cbn [status_code body count_call calls].
  destruct (http_get w (calls st) (api_url ++ str "/products"))
    as [e | c [[ | | | | | d]|]] eqn:Ecall;
    cbn [status_code body]; try destruct (c =? 200)%Z eqn:Estatus.
  all: eexists; split; [reflexivity|]; split.
  all: try (intros obj H; discriminate H).
  all: try (intros obj H; injection H as -> _; discriminate Estatus).
  all: try (intros _; reflexivity).
  - intros obj H. injection H as _ ->. reflexivity.
  - intros H. apply Z.eqb_eq in Estatus. subst c. exfalso. exact (H _ eq_refl).
Qed.

Lemma for_each_mkdir (f : pystr -> pystr) (ds : list pystr) :
  forall (st st' : state) (r : exc unit),
    for_each ds (fun directory => mkdir w (f directory)) st = (r, st') ->
    calls st' = calls st /\ files st' = files st
    /\ exists made rest,
         map f ds = made ++ rest
         /\ dirs st' = dirs st ++ made
         /\ match r with
            | Ok _ => rest = []
            | Raise e =>
                kind e = OSError
                /\ exists p rest', rest = p :: rest' /\ mkdir_ok w p = false
            end.
Proof.
  induction ds as [|x ds IH]; intros st st' r H; cbn [for_each] in H.
  - injection H as <- <-. split; [reflexivity|]. split; [reflexivity|].
    exists [], []. cbn [map app]. rewrite app_nil_r. auto.
  - unfold bind in H.
    destruct (mkdir w (f x) st) as [[u | e] st1] eqn:Em;
      unfold mkdir in Em; destruct (mkdir_ok w (f x)) eqn:Ex;
      try discriminate Em; injection Em as <- <-.
    + apply IH in H. cbn [calls files dirs] in H.
      destruct H as (Hc & Hf & made & rest & Hm & Hd & Hr).
      split; [exact Hc|]. split; [exact Hf|].
      exists (f x :: made), rest. cbn [map app]. rewrite Hm, Hd, <- app_assoc.
      auto.
    + injection H as <- <-. split; [reflexivity|]. split; [reflexivity|].
      exists [], (map f (x :: ds)). rewrite app_nil_r.
      split; [reflexivity|]. split; [reflexivity|]. split; [reflexivity|].
      exists (f x), (map f ds). auto.
Qed.


Lemma create_project_structure_writes (project_name : pystr) :
  writes (create_project_structure w project_name) 0 []
    (fun project_path => project_path = path_join (str "generated") project_name).
Proof.
  intros st r st' H. unfold create_project_structure, bind in H.
  destruct (for_each project_directories _ st) as [[u | e] st1] eqn:E;
    apply for_each_mkdir in E; destruct E as (Hc & Hf & _);
    injection H as <- <-.
  all: split; [lia|]; exists [], []; rewrite !app_nil_r, Hf.
  all: repeat split; reflexivity.
Qed.

Lemma fetch_product_data_state (api_url : pystr) (st st' : state) (r : exc json) :
  _fetch_product_data w api_url st = (r, st') ->
  st' = count_call st /\ exists v, r = Ok v.
Proof.
  cbv [_fetch_product_data try_except bind ret raise throw requests_get
       response_json py_get].
  cbn [status_code body count_call calls].
  destruct (http_get w (calls st) (api_url ++ str "/products"))
    as [e | c [[ | | | | | d]|]];
    cbn [status_code body]; try destruct (c =? 200)%Z.
  all: intros H; injection H as <- <-; split; [reflexivity | eexists; reflexivity].
Qed.

Lemma fetch_product_data_writes (api_url : pystr) :
  writes (_fetch_product_data w api_url) 1 [] (fun _ => True).
Proof.
  intros st r st' H. apply fetch_product_data_state in H as [-> [v ->]].
  cbn [calls files count_call]. split; [lia|].
  exists [], []. rewrite !app_nil_r. auto.
Qed.

Lemma validate_existing_server_writes (gcs_url : pystr) :
  writes (validate_existing_server w gcs_url) 3 [] (fun _ => True).
Proof.
  intros st r st' H. apply validate_existing_server_effects in H.
  destruct H as (Hf & _ & Hc & _). split; [lia|].
  exists [], []. rewrite !app_nil_r, Hf. destruct r; auto.
Qed.

Lemma writes_throw {A} (k : exn_kind) (msg : pystr) (n : nat)
    (paths : list pystr) (post : A -> Prop) :
  writes (@throw A k msg) n paths post.
Proof.
  intros st r st' H. injection H as <- <-. split; [lia|].
  exists [], paths. rewrite app_nil_r. auto.
Qed.

Lemma stateless_load_niche_config (niche : pystr) :
  stateless (load_niche_config w niche).
Proof.
  unfold load_niche_config. destruct (niche_file w niche); auto with pure.
Qed.

Lemma bind_ok_inv {A B} (c : M A) (k : A -> M B) (st st' : state) (b : B) :
  bind c k st = (Ok b, st') ->
  exists a st1, c st = (Ok a, st1) /\ k a st1 = (Ok b, st').
Proof.
  unfold bind. destruct (c st) as [[a | e] st1]; [|discriminate].
  intros H. exists a, st1. auto.
Qed.

(** The record of a successful generation. *)
Local Notation success_record brand_name niche api_url product_count :=
  [ (str "success", JBool true);
    (str "project_path",
     JStr (path_join (str "generated") (slug (format_brand_name brand_name))));
    (str "brand_name", JStr brand_name);
    (str "niche", JStr niche);
    (str "api_url", JStr api_url);
    (str "generated_files",
     JArr (map JStr (site_paths
                       (path_join (str "generated")
                          (slug (format_brand_name brand_name))))));
    (str "product_count", JNum product_count);
    (str "next_steps", next_steps) ].

(** X21. [generate_affiliate_site] never raises and issues at most four
    calls.  Whatever its outcome, the files it has written are the first
    few of the seventeen site files, in their order; it reports a success
    only when all seventeen are written, and a failure as a record with
    [success] false and the message of the exception. *)
Theorem generation_never_raises_and_writes_in_order
    (brand_name niche target_audience scraper_api_url : pystr) (st : state) :
  exists d st' done rest,
    generate_affiliate_site w brand_name niche target_audience scraper_api_url st
    = (Ok d, st')
    /\ calls st <= calls st' <= 4 + calls st
    /\ site_paths (path_join (str "generated") (slug (format_brand_name brand_name)))
       = done ++ rest
    /\ map fst (files st') = map fst (files st) ++ done
    /\ ((rest = []
         /\ exists product_count,
              d = success_record brand_name niche scraper_api_url product_count)
        \/ (exists m, d = [ (str "success", JBool false); (str "error", JStr m) ])).
Proof.
  unfold generate_affiliate_site.
  match goal with
  | |- context [try_except ?b ?h] => set (attempt := b)
  end.
  assert (Hattempt :
    writes attempt 4
      (generated_paths (path_join (str "generated")
                          (slug (format_brand_name brand_name))))
      (fun d => exists product_count,
         d = success_record brand_name niche scraper_api_url product_count)).
  { subst attempt.
    eapply (@writes_bind _ _ _ _ 3 1 []);
      [apply validate_existing_server_writes | intros valid _].
    destruct valid; cbn [negb]; [|apply writes_throw].
    apply writes_after_pure; [apply stateless_load_niche_config | intros cfg].
    cbv zeta.
    eapply (@writes_bind _ _ _ _ 0 1 []);
      [apply create_project_structure_writes | intros ? ->].
    eapply (@writes_bind _ _ _ _ 1 0 []);
      [apply fetch_product_data_writes | intros product_data _].
    eapply (@writes_bind _ _ _ _ 0 0
              (generated_paths (path_join (str "generated")
                                  (slug (format_brand_name brand_name)))) []);
      [apply generate_website_files_writes | intros results [Hfiles _]].
    apply writes_after_pure; [auto with pure | intros products].
    apply writes_after_pure; [auto with pure | intros product_count].
    apply writes_ret. exists product_count.
    rewrite Hfiles, <- generated_paths_flat. reflexivity. }
  unfold try_except. destruct (attempt st) as [[d | e] st1] eqn:E;
    destruct (Hattempt _ _ _ E) as (Hcalls & done & rest & Hp & Hf & Hr).
  - destruct Hr as [-> Hd]. exists d, st1, done, [].
    unfold generated_paths in Hp. rewrite generated_paths_flat in Hp.
    split; [reflexivity|]. repeat (split; [assumption|]).
    left. split; [reflexivity | exact Hd].
  - exists [ (str "success", JBool false); (str "error", JStr (str_exn e)) ],
      st1, done, rest.
    unfold generated_paths in Hp. rewrite generated_paths_flat in Hp.
    split; [reflexivity|]. repeat (split; [assumption|]).
    right. eexists. reflexivity.
Qed.

(** C1, as the code has it.  After a validation that returned [True] and
    a niche configuration that was read, [generate_affiliate_site] never
    reports a success.  The fetch of the products is soft, as stated: a
    failed fetch gives the empty sample and the generation goes on to write
    files.  But the template of the category page is not valid, so the
    generation stops there at the latest: it has written at most the
    package manifest, the home page and the API route, in this order, and
    returns the failure record. *)
Theorem generation_stops_at_category_page
    (brand_name niche target_audience scraper_api_url : pystr)
    (niche_config : json) (st st1 : state) :
  validate_existing_server w scraper_api_url st = (Ok true, st1) ->
  niche_file w niche = Content niche_config ->
  exists m st' done rest,
    generate_affiliate_site w brand_name niche target_audience scraper_api_url st
    = (Ok [ (str "success", JBool false); (str "error", JStr m) ], st')
    /\ firstn 3 (site_paths (path_join (str "generated")
                               (slug (format_brand_name brand_name))))
       = done ++ rest
    /\ map fst (files st') = map fst (files st) ++ done
    /\ calls st1 <= calls st' <= S (calls st1)
    /\ (forall s, fetch_fails w (calls s) scraper_api_url ->
          _fetch_product_data w scraper_api_url s
          = (Ok (JObj empty_sample), count_call s)).
Proof.
  intros Hvalid Hfile.
  destruct (validate_existing_server_effects _ _ _ Hvalid) as (Hf & _ & _ & _).
  unfold generate_affiliate_site, try_except.
  erewrite bind_run by exact Hvalid. cbn [negb].
  erewrite bind_run by (unfold load_niche_config; rewrite Hfile; reflexivity).
  cbv zeta.
  match goal with
  | |- context [match ?c st1 with _ => _ end] => set (attempt := c)
  end.
  assert (Hattempt :
    writes attempt 1
      (firstn 3 (generated_paths (path_join (str "generated")
                                    (slug (format_brand_name brand_name)))))
      (fun _ => False)).
  { subst attempt.
    eapply (@writes_bind _ _ _ _ 0 1 []);
      [apply create_project_structure_writes | intros ? ->].
    eapply (@writes_bind _ _ _ _ 1 0 []);
      [apply fetch_product_data_writes | intros product_data _].
    eapply (@writes_bind _ _ _ _ 0 0
              (firstn 3 (generated_paths (path_join (str "generated")
                                  (slug (format_brand_name brand_name))))) []);
      [apply generate_website_files_stops | intros ? []]. }
  destruct (attempt st1) as [[d | e] st2] eqn:E;
    destruct (Hattempt _ _ _ E) as (Hcalls & done & rest & Hp & Hfiles & Hr).
  - destruct Hr as [_ []].
  - exists (str_exn e), st2, done, rest.
    unfold generated_paths in Hp. rewrite generated_paths_flat in Hp.
    split; [reflexivity|]. split; [exact Hp|].
    split; [rewrite Hfiles, Hf; reflexivity|].
    split; [lia|]. intros s Hs. apply fetch_soft_fail. exact Hs.
Qed.

(** X23. When the validation of the server returns [False] the generation
    stops there: it reports the failure with the message of the validation,
    and no directory and no file has been created. *)
Theorem generation_stops_at_failed_validation
    (brand_name niche target_audience scraper_api_url : pystr)
    (st st1 : state) :
  validate_existing_server w scraper_api_url st = (Ok false, st1) ->
  generate_affiliate_site w brand_name niche target_audience scraper_api_url st
  = (Ok [ (str "success", JBool false);
          (str "error", JStr (str "GCS server validation failed")) ],
     st1)
  /\ files st1 = files st /\ dirs st1 = dirs st.
Proof.
  intros Hvalid.
  destruct (validate_existing_server_effects _ _ _ Hvalid) as (Hf & Hd & _).
  split; [|split; assumption].
  unfold generate_affiliate_site, try_except.
  erewrite bind_run by exact Hvalid. reflexivity.
Qed.

End GeneratorEffects.

(** ** The deployment record *)

Section DeploymentRecord.

Variable w : world.





End DeploymentRecord.

(** ** The further statements on the scenarios *)

Section FurtherScenarios.

Import Scenario MoreScenarios.

Lemma healthy_record_is_complete_witness :
  exists d st',
    get_server_status healthy_server gcs start = (Ok d, st')
    /\ (exists b, http_get healthy_server (calls start) (gcs ++ str "/health")
                  = Response 200 b)
    /\ calls st' = 3 + calls start
    /\ (exists products_count,
          dict_lookup (str "products_count") d = Some products_count)
    /\ (exists sites, dict_lookup (str "available_sites") d = Some sites)
    /\ dict_lookup (str "error") d = None.
Proof.
  eassert (Hrun : get_server_status healthy_server gcs start = (Ok _, _))
    by (vm_compute; reflexivity).
  eexists _, _. split; [exact Hrun|].
  exact (@healthy_record_is_complete healthy_server gcs start _ _ Hrun eq_refl).
Defined.

Lemma validation_is_sound_witness :
  validate_existing_server healthy_server gcs start = (Ok true, validated)
  /\ calls validated = 3 + calls start
  /\ files validated = files start
  /\ dirs validated = dirs start.
Proof.
  assert (Hrun : validate_existing_server healthy_server gcs start
                 = (Ok true, validated))
    by (vm_compute; reflexivity).
  split; [exact Hrun|].
  exact (proj2 (@validation_is_sound healthy_server gcs start validated Hrun)).
Defined.

Lemma unhealthy_server_is_rejected_witness :
  exists st', validate_existing_server unreachable gcs start = (Ok false, st').
Proof.
  apply unhealthy_server_is_rejected.
  intros b. vm_compute. discriminate.
Defined.

Lemma validation_raises_only_type_error_witness :
  exists e st',
    validate_existing_server count_as_text gcs start = (Raise e, st')
    /\ kind e = TypeError.
Proof.
  eassert (Hrun : validate_existing_server count_as_text gcs start = (Raise _, _))
    by (vm_compute; reflexivity).
  eexists _, _. split; [exact Hrun|].
  exact (proj1 (@validation_raises_only_type_error count_as_text gcs start _ _ Hrun)).
Defined.

Lemma publish_success_ran_every_command_witness :
  chdir_ok fresh_checkout site_dir = true
  /\ [GitInit; GitRemoteAddOrigin repo; GitAddAll; GitCommit; GitPushForceMain]
     = (if git_dir_exists fresh_checkout site_dir
        then []
        else [GitInit; GitRemoteAddOrigin repo])
       ++ [GitAddAll; GitCommit; GitPushForceMain]
  /\ (forall pre c post,
        [GitInit; GitRemoteAddOrigin repo; GitAddAll; GitCommit; GitPushForceMain]
        = pre ++ c :: post ->
        command_ok fresh_checkout pre c = true).
Proof.
  apply (@publish_success_ran_every_command fresh_checkout site_dir repo).
  reflexivity.
Defined.

Lemma publish_failure_stops_at_failed_command_witness :
  (chdir_ok rejected_push site_dir = false
   /\ [GitAddAll; GitCommit; GitPushForceMain] = [])
  \/ (exists pre c post,
        [GitAddAll; GitCommit; GitPushForceMain] = pre ++ [c]
        /\ (if git_dir_exists rejected_push site_dir
            then []
            else [GitInit; GitRemoteAddOrigin repo])
           ++ [GitAddAll; GitCommit; GitPushForceMain]
           = pre ++ c :: post
        /\ command_ok rejected_push pre c = false
        /\ (forall p1 c1 p2, pre = p1 ++ c1 :: p2 ->
                             command_ok rejected_push p1 c1 = true)).
Proof.
  apply (@publish_failure_stops_at_failed_command rejected_push site_dir repo).
  reflexivity.
Defined.

Lemma publish_into_existing_repository_ignores_url_witness :
  setup_git_and_push rejected_push site_dir repo
  = setup_git_and_push rejected_push site_dir (str "https://example.org/other.git")
  /\ (forall url, ~ In (GitRemoteAddOrigin url)
                      (snd (setup_git_and_push rejected_push site_dir repo))).
Proof.
  apply publish_into_existing_repository_ignores_url. reflexivity.
Defined.


Lemma generation_stops_at_category_page_witness :
  exists m st',
    generate_affiliate_site fetch_down brand outdoor hikers gcs start
    = (Ok [ (str "success", JBool false); (str "error", JStr m) ], st')
    /\ http_get fetch_down 3 (gcs ++ str "/products") = TransportError timed_out
    /\ map fst (files st')
       = firstn 3 (site_paths (str "generated/adventure-gear-pro"))
    /\ nth_error (map snd (files st')) 2 = Some (Text (empty_fallback_route gcs))
    /\ calls st' = 4.
Proof.
  destruct (@generation_stops_at_category_page fetch_down brand outdoor hikers
              gcs outdoor_config start validated)
    as (m & st' & done & rest & Hrun & _).
  - vm_compute. reflexivity.
  - reflexivity.
  - exists m, st'. split; [exact Hrun|].
    eassert (Hcomputed :
      generate_affiliate_site fetch_down brand outdoor hikers gcs start
      = (Ok _, _)) by (vm_compute; reflexivity).
    rewrite Hcomputed in Hrun. injection Hrun as _ <-.
    repeat split.
Defined.



Lemma generation_stops_at_failed_validation_witness :
  exists st1,
    validate_existing_server sites_down gcs start = (Ok false, st1)
    /\ generate_affiliate_site sites_down brand outdoor hikers gcs start
       = (Ok [ (str "success", JBool false);
               (str "error", JStr (str "GCS server validation failed")) ],
          st1)
    /\ files st1 = files start /\ dirs st1 = dirs start.
Proof.
  eassert (Hrun : validate_existing_server sites_down gcs start = (Ok false, _))
    by (vm_compute; reflexivity).
  eexists. split; [exact Hrun|].
  exact (@generation_stops_at_failed_validation sites_down brand outdoor hikers
           gcs start _ Hrun).
Defined.

Lemma quick_check_success_is_sound_witness :
  exists d st' hb obj sample,
    check_server_status healthy_server gcs start = (Ok d, st')
    /\ http_get healthy_server (calls start) (gcs ++ str "/health") = Response 200 hb
    /\ http_get healthy_server (S (calls start)) (gcs ++ str "/products")
       = Response 200 (Some (JObj obj))
    /\ py_eq_int (get_or obj (str "count") (JNum 0)) 0 = false
    /\ py_slice_to 3 (get_or obj (str "products") (JArr [])) st' = (Ok sample, st')
    /\ d = [ (str "success", JBool true);
             (str "products_count", get_or obj (str "count") (JNum 0));
             (str "sample_products", sample) ]
    /\ calls st' = 2 + calls start.
Proof.
  eassert (Hrun : check_server_status healthy_server gcs start = (Ok _, _))
    by (vm_compute; reflexivity).
  destruct (@quick_check_success_is_sound healthy_server gcs start _ _ Hrun eq_refl)
    as (hb & obj & sample & H).
  eexists _, _, hb, obj, sample. split; [exact Hrun | exact H].
Defined.


End FurtherScenarios.
